(** * DevBox MCP server: resolver and operation facade

  A shallow embedding of [src/devbox/mcp_server.py].  The three tool
  operations ([devbox_launch], [devbox_status], [devbox_terminate]) and the
  helper [_resolve_termination_target] are written in a small
  reader/trace/error monad: every call to a collaborator (the
  [DevBoxManager], its EC2 client, [launch_devbox], the logger) is
  recorded in a history of events, and a collaborator's answer may depend
  on the whole history, so stateful providers are covered. *)

From Stdlib Require Import String List ZArith Bool Lia.
From ExtLib Require Import Structures.Monad.
Import ListNotations.
Import MonadNotation.

Local Set Warnings "-register-all".

Local Open Scope string_scope.
Local Open Scope monad_scope.

(** ** Python values and exceptions *)

Module Py.

(** The JSON-like values that travel through the server: records are
    dictionaries with string keys, kept in insertion order as in Python. *)
Inductive pyval : Type :=
| PNone
| PBool (b : bool)
| PInt (z : Z)
| PStr (s : string)
| PList (l : list pyval)
| PDict (d : list (string * pyval)).

(** A raised exception: its class name, whether the class derives from
    [Exception] (as opposed to deriving from [BaseException] only, like
    [KeyboardInterrupt]), the text of [str(e)], and [__cause__]. *)
Inductive exn : Type :=
  mkExn { exn_class : string;
          is_Exception : bool;
          exn_str : string;
          exn_cause : option exn }.

Definition result (A : Type) : Type := (exn + A)%type.

Definition type_name (v : pyval) : string :=
  match v with
  | PNone => "NoneType"
  | PBool _ => "bool"
  | PInt _ => "int"
  | PStr _ => "str"
  | PList _ => "list"
  | PDict _ => "dict"
  end.

Definition AttributeError (v : pyval) (attr : string) : exn :=
  mkExn "AttributeError" true
        ("'" ++ type_name v ++ "' object has no attribute '" ++ attr ++ "'")
        None.

Definition KeyError (shown : string) : exn :=
  mkExn "KeyError" true shown None.

Definition IndexError (what : string) : exn :=
  mkExn "IndexError" true (what ++ " index out of range") None.

Definition TypeError (msg : string) : exn :=
  mkExn "TypeError" true msg None.

(** [RuntimeError(msg)] raised [from e]. *)
Definition RuntimeError_from (msg : string) (e : exn) : exn :=
  mkExn "RuntimeError" true msg (Some e).

(** Lookup in a dictionary. *)
Fixpoint dict_lookup (d : list (string * pyval)) (k : string) : option pyval :=
  match d with
  | [] => None
  | (k', v) :: d' => if String.eqb k' k then Some v else dict_lookup d' k
  end.

(** [d.get(k, default)] on a dictionary. *)
Definition dict_get (d : list (string * pyval)) (k : string) (default : pyval)
  : pyval :=
  match dict_lookup d k with
  | Some v => v
  | None => default
  end.

(** [v.get(k, default)]: only dictionaries have the method. *)
Definition py_get (v : pyval) (k : string) (default : pyval) : result pyval :=
  match v with
  | PDict d => inr (dict_get d k default)
  | _ => inl (AttributeError v "get")
  end.

(** [v[k]] for a string key [k]. *)
Definition py_getitem_key (v : pyval) (k : string) : result pyval :=
  match v with
  | PDict d =>
      match dict_lookup d k with
      | Some x => inr x
      | None => inl (KeyError ("'" ++ k ++ "'"))
      end
  | PList _ => inl (TypeError "list indices must be integers or slices, not str")
  | PStr _ => inl (TypeError "string indices must be integers, not 'str'")
  | _ => inl (TypeError ("'" ++ type_name v ++ "' object is not subscriptable"))
  end.

(** [l[0]] on a list. *)
Definition list_getitem0 (l : list pyval) : result pyval :=
  match l with
  | x :: _ => inr x
  | [] => inl (IndexError "list")
  end.

(** [v[0]]. *)
Definition py_getitem0 (v : pyval) : result pyval :=
  match v with
  | PList l => list_getitem0 l
  | PStr s =>
      match s with
      | String c _ => inr (PStr (String c EmptyString))
      | EmptyString => inl (IndexError "string")
      end
  | PDict _ => inl (KeyError "0")
  | _ => inl (TypeError ("'" ++ type_name v ++ "' object is not subscriptable"))
  end.

(** Truth value of an object, as tested by [or]. *)
Definition truthy (v : pyval) : bool :=
  match v with
  | PNone => false
  | PBool b => b
  | PInt z => negb (z =? 0)%Z
  | PStr s => negb (String.eqb s "")
  | PList l => negb (Nat.eqb (length l) 0)
  | PDict d => negb (Nat.eqb (length d) 0)
  end.

(** [v or w]. *)
Definition py_or (v w : pyval) : pyval := if truthy v then v else w.

End Py.
Export Py.

(** ** Collaborators, events and the monad of the server *)

Module Effects.

(** Keyword arguments of [launch_devbox]. *)
Record launch_args : Type :=
  mkLaunchArgs { la_project : string;
                 la_instance_type : option string;
                 la_key_pair : option string;
                 la_volume_size : Z;
                 la_base_ami : option string;
                 la_param_prefix : string;
                 la_emit_output : bool }.

(** One observable interaction of the server with its surroundings, with
    the arguments passed.  A keyword argument that the call site leaves
    out is [None] ([serialize] of [list_instances] in the resolver). *)
Inductive event : Type :=
| EvDevBoxManager
| EvListInstances (project : option string) (serialize : option bool)
| EvListVolumes (project : option string)
| EvListSnapshots (project : option string) (serialize : option bool)
| EvDescribeInstances (InstanceIds : list string)
| EvTerminateInstance (identifier : string)
| EvLaunchDevbox (args : launch_args)
| EvLoggerException (msg : string).

Definition history : Type := list event.

(** The surrounding system.  Each operation answers with a value or raises;
    the answer may depend on everything that happened before.  The bodies
    of [DevBoxManager], [launch_devbox] and [utils.get_project_tag] are
    outside this module, so they are parameters here. *)
Record Collaborators : Type :=
  mkCollaborators {
    DevBoxManager : history -> result unit;
    list_instances : history -> option string -> option bool -> result (list pyval);
    list_volumes : history -> option string -> result (list pyval);
    list_snapshots : history -> option string -> option bool -> result (list pyval);
    describe_instances : history -> list string -> result pyval;
    terminate_instance : history -> string -> result (pyval * pyval);
    launch_devbox : history -> launch_args -> result pyval;
    get_project_tag : pyval -> result pyval }.

(** A computation reads the collaborators, extends the history and either
    returns or raises.  The history survives a raise. *)
Definition M (A : Type) : Type :=
  Collaborators -> history -> result A * history.

Definition m_ret {A : Type} (a : A) : M A := fun _ h => (inr a, h).

Definition m_bind {A B : Type} (m : M A) (k : A -> M B) : M B :=
  fun env h =>
    match m env h with
    | (inr a, h') => k a env h'
    | (inl e, h') => (inl e, h')
    end.

#[export] Instance Monad_M : Monad M :=
  {| ret := @m_ret; bind := @m_bind |}.

Definition raise {A : Type} (e : exn) : M A := fun _ h => (inl e, h).

(** A pure step that may raise (a subscript, a method call). *)
Definition lift {A : Type} (r : result A) : M A := fun _ h => (r, h).

(** [try: body  except Exception as e: handler e].  Only instances of
    [Exception] are handled; anything else keeps propagating. *)
Definition try_except {A : Type} (body : M A) (handler : exn -> M A) : M A :=
  fun env h =>
    match body env h with
    | (inr a, h') => (inr a, h')
    | (inl e, h') =>
        if is_Exception e then handler e env h' else (inl e, h')
    end.

(** A call to a collaborator: ask it at the current history, record the
    event. *)
Definition call {A : Type} (ev : event)
           (ask : Collaborators -> history -> result A) : M A :=
  fun env h => (ask env h, (h ++ [ev])%list).

Definition log_exception (msg : string) : M unit :=
  fun _ h => (inr tt, (h ++ [EvLoggerException msg])%list).

Definition outcome {A : Type} (r : result A * history) : result A := fst r.
Definition trace {A : Type} (r : result A * history) : history := snd r.

End Effects.
Export Effects.

(** ** The server: [src/devbox/mcp_server.py] *)

Module McpServer.

(** [manager.list_instances(project=identifier)] and the other collaborator
    calls, as steps of the monad. *)
Definition manager_new : M unit :=
  call EvDevBoxManager (fun env h => DevBoxManager env h).

Definition manager_list_instances (project : option string)
           (serialize : option bool) : M (list pyval) :=
  call (EvListInstances project serialize)
       (fun env h => list_instances env h project serialize).

Definition manager_list_volumes (project : option string) : M (list pyval) :=
  call (EvListVolumes project) (fun env h => list_volumes env h project).

Definition manager_list_snapshots (project : option string)
           (serialize : option bool) : M (list pyval) :=
  call (EvListSnapshots project serialize)
       (fun env h => list_snapshots env h project serialize).

Definition ec2_describe_instances (InstanceIds : list string) : M pyval :=
  call (EvDescribeInstances InstanceIds)
       (fun env h => describe_instances env h InstanceIds).

Definition manager_terminate_instance (identifier : string) : M (pyval * pyval) :=
  call (EvTerminateInstance identifier)
       (fun env h => terminate_instance env h identifier).

Definition call_launch_devbox (args : launch_args) : M pyval :=
  call (EvLaunchDevbox args) (fun env h => launch_devbox env h args).

Definition utils_get_project_tag (tags : pyval) : M pyval :=
  fun env h => (get_project_tag env tags, h).

(** [response["Reservations"][0]["Instances"][0]] (line 44). *)
Definition first_instance (response : pyval) : result pyval :=
  match py_getitem_key response "Reservations" with
  | inl e => inl e
  | inr reservations =>
      match py_getitem0 reservations with
      | inl e => inl e
      | inr reservation =>
          match py_getitem_key reservation "Instances" with
          | inl e => inl e
          | inr insts => py_getitem0 insts
          end
      end
  end.

(** The body of the [try] in [_resolve_termination_target] (lines 43-46):
    describe the identifier as an instance id and read the first instance
    of the first reservation. *)
Definition direct_id_lookup (identifier : string) : M (pyval * pyval) :=
  response <- ec2_describe_instances [identifier] ;;
  instance <- lift (first_instance response) ;;
  tags <- lift (py_get instance "Tags" (PList [])) ;;
  tag <- utils_get_project_tag tags ;;
  let project := py_or tag PNone in
  instance_id <- lift (py_get instance "InstanceId" PNone) ;;
  ret (instance_id, project).

(** [_resolve_termination_target(manager, identifier)] (lines 36-48). *)
Definition _resolve_termination_target (identifier : string)
  : M (pyval * pyval) :=
  instances <- manager_list_instances (Some identifier) None ;;
  if Nat.eqb (length instances) 1 then
    first <- lift (list_getitem0 instances) ;;
    instance_id <- lift (py_get first "InstanceId" PNone) ;;
    first' <- lift (list_getitem0 instances) ;;
    project <- lift (py_get first' "Project" PNone) ;;
    ret (instance_id, project)
  else if Nat.ltb 1 (length instances) then
    ret (PNone, PNone)
  else
    try_except (direct_id_lookup identifier)
               (fun _ => ret (PNone, PNone)).

(** [devbox_launch] (lines 87-99).  The Python defaults of the optional
    parameters are [None], [None], [0], [None] and ["/devbox"]. *)
Definition devbox_launch (project : string)
           (instance_type key_pair : option string) (volume_size : Z)
           (base_ami : option string) (param_prefix : string) : M pyval :=
  try_except
    (call_launch_devbox
       (mkLaunchArgs project instance_type key_pair volume_size base_ami
                     param_prefix false))
    (fun e =>
       log_exception "devbox_launch failed" ;;
       raise (RuntimeError_from ("Failed to launch devbox: " ++ exn_str e) e)).

(** The body of the [try] in [devbox_status] (lines 122-130). *)
Definition devbox_status_body (project : option string) : M pyval :=
  manager_new ;;
  instances <- manager_list_instances project (Some true) ;;
  volumes <- manager_list_volumes project ;;
  snapshots <- manager_list_snapshots project (Some true) ;;
  ret (PDict [("instances", PList instances);
              ("volumes", PList volumes);
              ("snapshots", PList snapshots)]).

(** [devbox_status] (lines 121-133). *)
Definition devbox_status (project : option string) : M pyval :=
  try_except
    (devbox_status_body project)
    (fun e =>
       log_exception "devbox_status failed" ;;
       raise (RuntimeError_from ("Failed to retrieve status: " ++ exn_str e) e)).

(** The body of the [try] in [devbox_terminate] (lines 156-164). *)
Definition devbox_terminate_body (identifier : string) : M pyval :=
  manager_new ;;
  resolved <- _resolve_termination_target identifier ;;
  let '(instance_id, project) := resolved in
  answer <- manager_terminate_instance identifier ;;
  let '(success, message) := answer in
  ret (PDict [("success", success);
              ("message", message);
              ("project", project);
              ("instance_id", instance_id)]).

(** [devbox_terminate] (lines 155-167). *)
Definition devbox_terminate (identifier : string) : M pyval :=
  try_except
    (devbox_terminate_body identifier)
    (fun e =>
       log_exception "devbox_terminate failed" ;;
       raise (RuntimeError_from ("Failed to terminate instance: " ++ exn_str e) e)).

End McpServer.
Export McpServer.

(** ** Observations on histories and on collaborators *)

(** The identifiers passed to [terminate_instance], in order. *)
Fixpoint terminate_calls (h : history) : list string :=
  match h with
  | [] => []
  | EvTerminateInstance identifier :: h' => identifier :: terminate_calls h'
  | _ :: h' => terminate_calls h'
  end.

(** The instance-id lists passed to [describe_instances], in order. *)
Fixpoint describe_calls (h : history) : list (list string) :=
  match h with
  | [] => []
  | EvDescribeInstances ids :: h' => ids :: describe_calls h'
  | _ :: h' => describe_calls h'
  end.

(** The argument records passed to [launch_devbox], in order. *)
Fixpoint launch_calls (h : history) : list launch_args :=
  match h with
  | [] => []
  | EvLaunchDevbox args :: h' => args :: launch_calls h'
  | _ :: h' => launch_calls h'
  end.

(** The messages handed to [logger.exception], in order. *)
Fixpoint log_records (h : history) : list string :=
  match h with
  | [] => []
  | EvLoggerException msg :: h' => msg :: log_records h'
  | _ :: h' => log_records h'
  end.

(** The queries made on the manager ([list_instances], [list_volumes],
    [list_snapshots]), in order. *)
Fixpoint list_queries (h : history) : list event :=
  match h with
  | [] => []
  | EvListInstances p s :: h' => EvListInstances p s :: list_queries h'
  | EvListVolumes p :: h' => EvListVolumes p :: list_queries h'
  | EvListSnapshots p s :: h' => EvListSnapshots p s :: list_queries h'
  | _ :: h' => list_queries h'
  end.

Definition is_dict (v : pyval) : bool :=
  match v with
  | PDict _ => true
  | _ => false
  end.

(** A computation whose only effect on the history is to append events of
    an allowed kind. *)
Definition appends_only {A : Type} (allowed : event -> bool) (m : M A) : Prop :=
  forall env h,
  exists t, trace (m env h) = (h ++ t)%list /\ forallb allowed t = true.

(** The events of the resolver: the two provider reads. *)
Definition resolver_event (ev : event) : bool :=
  match ev with
  | EvListInstances _ _ | EvDescribeInstances _ => true
  | _ => false
  end.

(** The events of [devbox_status]. *)
Definition status_event (ev : event) : bool :=
  match ev with
  | EvDevBoxManager | EvListInstances _ _ | EvListVolumes _
  | EvListSnapshots _ _ | EvLoggerException _ => true
  | _ => false
  end.

(** The events of [devbox_launch]. *)
Definition launch_event (ev : event) : bool :=
  match ev with
  | EvLaunchDevbox _ | EvLoggerException _ => true
  | _ => false
  end.

(** The events of [devbox_terminate]. *)
Definition terminate_event (ev : event) : bool :=
  match ev with
  | EvDevBoxManager | EvListInstances _ _ | EvDescribeInstances _
  | EvTerminateInstance _ | EvLoggerException _ => true
  | _ => false
  end.

(** Anything but a log record. *)
Definition collaborator_event (ev : event) : bool :=
  match ev with
  | EvLoggerException _ => false
  | _ => true
  end.

(** Every failure of a collaborator is an instance of [Exception]: a
    provider error, a not-found, a permission or validation error; not an
    interpreter signal such as [KeyboardInterrupt] or [SystemExit]. *)
Record raises_only_Exceptions (env : Collaborators) : Prop :=
  mkRaisesOnlyExceptions {
    roe_manager : forall h e,
      DevBoxManager env h = inl e -> is_Exception e = true;
    roe_instances : forall h p s e,
      list_instances env h p s = inl e -> is_Exception e = true;
    roe_volumes : forall h p e,
      list_volumes env h p = inl e -> is_Exception e = true;
    roe_snapshots : forall h p s e,
      list_snapshots env h p s = inl e -> is_Exception e = true;
    roe_describe : forall h ids e,
      describe_instances env h ids = inl e -> is_Exception e = true;
    roe_terminate : forall h i e,
      terminate_instance env h i = inl e -> is_Exception e = true;
    roe_launch : forall h a e,
      launch_devbox env h a = inl e -> is_Exception e = true;
    roe_project_tag : forall tags e,
      get_project_tag env tags = inl e -> is_Exception e = true }.

(** ** Concrete collaborators *)

Module Scenarios.

(** Modelled from the spec: [utils.get_project_tag] is not among the sources
    at hand.  Section 6 gives it as [project_of(tags) -> string|null] and
    section 4.1 reads an absent tag as a null project: the value of the tag
    whose key is [Project], null when there is none.  It only serves to
    build the concrete collaborators below. *)
Fixpoint project_of_tags (tags : list pyval) : pyval :=
  match tags with
  | [] => PNone
  | PDict t :: rest =>
      match dict_lookup t "Key" with
      | Some (PStr k) =>
          if String.eqb k "Project" then dict_get t "Value" PNone
          else project_of_tags rest
      | _ => project_of_tags rest
      end
  | _ :: rest => project_of_tags rest
  end.

Definition project_of (tags : pyval) : result pyval :=
  match tags with
  | PList l => inr (project_of_tags l)
  | _ => inl (TypeError ("'" ++ type_name tags ++ "' object is not iterable"))
  end.

(** The failure used by the repository's test of [devbox_status]. *)
Definition Boom : exn := mkExn "Exception" true "Boom" None.

Definition NotFound : exn :=
  mkExn "ClientError" true "InvalidInstanceID.NotFound" None.

Definition launched : pyval :=
  PDict [("project", PStr "test-project"); ("instance_id", PStr "i-12345");
         ("public_ip", PStr "1.2.3.4"); ("username", PStr "ubuntu");
         ("image_id", PStr "ami-12345"); ("instance_type", PStr "t3.medium");
         ("key_pair", PStr "test-key"); ("status", PStr "running")].

(** An account with no resources: nothing is listed, no id is known. *)
Definition empty_account : Collaborators :=
  {| DevBoxManager := fun _ => inr tt;
     list_instances := fun _ _ _ => inr [];
     list_volumes := fun _ _ => inr [];
     list_snapshots := fun _ _ _ => inr [];
     describe_instances := fun _ _ => inl NotFound;
     terminate_instance := fun _ _ => inr (PBool false, PStr "Instance not found");
     launch_devbox := fun _ _ => inr launched;
     get_project_tag := project_of |}.

(** The provider is unreachable: every query raises. *)
Definition provider_down : Collaborators :=
  {| DevBoxManager := fun _ => inr tt;
     list_instances := fun _ _ _ => inl Boom;
     list_volumes := fun _ _ => inl Boom;
     list_snapshots := fun _ _ _ => inl Boom;
     describe_instances := fun _ _ => inl Boom;
     terminate_instance := fun _ _ => inl Boom;
     launch_devbox := fun _ _ => inl Boom;
     get_project_tag := project_of |}.

(** Listing instances fails; terminating would succeed if it were asked. *)
Definition listing_down : Collaborators :=
  {| DevBoxManager := fun _ => inr tt;
     list_instances := fun _ _ _ => inl Boom;
     list_volumes := fun _ _ => inr [];
     list_snapshots := fun _ _ _ => inr [];
     describe_instances := fun _ _ => inl NotFound;
     terminate_instance := fun _ _ => inr (PBool true, PStr "Terminating");
     launch_devbox := fun _ _ => inr launched;
     get_project_tag := project_of |}.

Definition my_instance : list (string * pyval) :=
  [("InstanceId", PStr "i-12345"); ("Project", PStr "my-project");
   ("State", PStr "running")].

Definition other_instance : list (string * pyval) :=
  [("InstanceId", PStr "i-67890"); ("Project", PStr "my-project");
   ("State", PStr "stopped")].

Definition instances_of (records : list pyval) (project : option string)
  : list pyval :=
  match project with
  | Some p => if String.eqb p "my-project" then records else []
  | None => records
  end.

(** One instance tagged [my-project]; terminating reports success. *)
Definition one_instance : Collaborators :=
  {| DevBoxManager := fun _ => inr tt;
     list_instances := fun _ p _ => inr (instances_of [PDict my_instance] p);
     list_volumes := fun _ _ => inr [PDict [("VolumeId", PStr "vol-1")]];
     list_snapshots := fun _ _ _ => inr [PDict [("SnapshotId", PStr "snap-1")]];
     describe_instances := fun _ _ => inl NotFound;
     terminate_instance := fun _ _ => inr (PBool true, PStr "Terminating");
     launch_devbox := fun _ _ => inr launched;
     get_project_tag := project_of |}.

(** Two instances share the tag [my-project]. *)
Definition two_instances : Collaborators :=
  {| DevBoxManager := fun _ => inr tt;
     list_instances := fun _ p _ =>
       inr (instances_of [PDict my_instance; PDict other_instance] p);
     list_volumes := fun _ _ => inr [];
     list_snapshots := fun _ _ _ => inr [];
     describe_instances := fun _ _ => inl NotFound;
     terminate_instance := fun _ _ => inr (PBool false, PStr "Multiple instances");
     launch_devbox := fun _ _ => inr launched;
     get_project_tag := project_of |}.

Definition untagged : list (string * pyval) :=
  [("InstanceId", PStr "i-0abc"); ("Tags", PList [])].

Definition describe_response (instance : pyval) : pyval :=
  PDict [("Reservations", PList [PDict [("Instances", PList [instance])]])].

(** No instance carries the identifier as project tag, but the provider
    knows it as an instance id; that instance has no tags. *)
Definition untagged_instance : Collaborators :=
  {| DevBoxManager := fun _ => inr tt;
     list_instances := fun _ _ _ => inr [];
     list_volumes := fun _ _ => inr [];
     list_snapshots := fun _ _ _ => inr [];
     describe_instances := fun _ _ => inr (describe_response (PDict untagged));
     terminate_instance := fun _ _ => inr (PBool true, PStr "Terminating");
     launch_devbox := fun _ _ => inr launched;
     get_project_tag := project_of |}.

(** An interpreter signal: not an instance of [Exception]. *)
Definition KeyboardInterrupt : exn := mkExn "KeyboardInterrupt" false "" None.

(** Every call is interrupted. *)
Definition interrupted : Collaborators :=
  {| DevBoxManager := fun _ => inr tt;
     list_instances := fun _ _ _ => inl KeyboardInterrupt;
     list_volumes := fun _ _ => inl KeyboardInterrupt;
     list_snapshots := fun _ _ _ => inl KeyboardInterrupt;
     describe_instances := fun _ _ => inl KeyboardInterrupt;
     terminate_instance := fun _ _ => inl KeyboardInterrupt;
     launch_devbox := fun _ _ => inl KeyboardInterrupt;
     get_project_tag := project_of |}.

(** No instance is listed for any project; the lookup by id answers as
    given; terminating reports success. *)
Definition lookup_answers (answer : result pyval) : Collaborators :=
  {| DevBoxManager := fun _ => inr tt;
     list_instances := fun _ _ _ => inr [];
     list_volumes := fun _ _ => inr [];
     list_snapshots := fun _ _ _ => inr [];
     describe_instances := fun _ _ => answer;
     terminate_instance := fun _ _ => inr (PBool true, PStr "Terminating");
     launch_devbox := fun _ _ => inr launched;
     get_project_tag := project_of |}.

Definition tagged : list (string * pyval) :=
  [("InstanceId", PStr "i-0def");
   ("Tags", PList [PDict [("Key", PStr "Name"); ("Value", PStr "box")];
                   PDict [("Key", PStr "Project"); ("Value", PStr "demo")]])].

(** An instance whose [Tags] entry is present but null. *)
Definition null_tags : list (string * pyval) :=
  [("InstanceId", PStr "i-0abc"); ("Tags", PNone)].

Definition no_reservations : pyval := PDict [("Reservations", PList [])].

(** The listing holds something that is not a record. *)
Definition malformed_listing : Collaborators :=
  {| DevBoxManager := fun _ => inr tt;
     list_instances := fun _ _ _ => inr [PNone];
     list_volumes := fun _ _ => inr [];
     list_snapshots := fun _ _ _ => inr [];
     describe_instances := fun _ _ => inl NotFound;
     terminate_instance := fun _ _ => inr (PBool true, PStr "Terminating");
     launch_devbox := fun _ _ => inr launched;
     get_project_tag := project_of |}.

(** The manager cannot be built (no credentials, say). *)
Definition manager_down : Collaborators :=
  {| DevBoxManager := fun _ => inl Boom;
     list_instances := fun _ _ _ => inr [];
     list_volumes := fun _ _ => inr [];
     list_snapshots := fun _ _ _ => inr [];
     describe_instances := fun _ _ => inl NotFound;
     terminate_instance := fun _ _ => inr (PBool true, PStr "Terminating");
     launch_devbox := fun _ _ => inr launched;
     get_project_tag := project_of |}.

(** Instances are listed, volumes are not. *)
Definition volumes_down : Collaborators :=
  {| DevBoxManager := fun _ => inr tt;
     list_instances := fun _ p _ => inr (instances_of [PDict my_instance] p);
     list_volumes := fun _ _ => inl Boom;
     list_snapshots := fun _ _ _ => inr [];
     describe_instances := fun _ _ => inl NotFound;
     terminate_instance := fun _ _ => inr (PBool true, PStr "Terminating");
     launch_devbox := fun _ _ => inr launched;
     get_project_tag := project_of |}.

(** One instance tagged [my-project]; terminating it fails. *)
Definition terminate_down : Collaborators :=
  {| DevBoxManager := fun _ => inr tt;
     list_instances := fun _ p _ => inr (instances_of [PDict my_instance] p);
     list_volumes := fun _ _ => inr [];
     list_snapshots := fun _ _ _ => inr [];
     describe_instances := fun _ _ => inl NotFound;
     terminate_instance := fun _ _ => inl Boom;
     launch_devbox := fun _ _ => inr launched;
     get_project_tag := project_of |}.

End Scenarios.
Export Scenarios.

(** ** Running the server: first facts *)

Ltac unfold_server :=
  unfold devbox_launch, devbox_status, devbox_status_body,
    devbox_terminate, devbox_terminate_body, _resolve_termination_target,
    direct_id_lookup, manager_new, manager_list_instances,
    manager_list_volumes, manager_list_snapshots, ec2_describe_instances,
    manager_terminate_instance, call_launch_devbox, utils_get_project_tag,
    try_except, call, lift, log_exception, raise;
  cbn [bind ret Monad_M m_bind m_ret].

Example status_of_one_instance :
  devbox_status (Some "my-project") one_instance [] =
    (inr (PDict [("instances", PList [PDict my_instance]);
                 ("volumes", PList [PDict [("VolumeId", PStr "vol-1")]]);
                 ("snapshots", PList [PDict [("SnapshotId", PStr "snap-1")]])]),
     [EvDevBoxManager;
      EvListInstances (Some "my-project") (Some true);
      EvListVolumes (Some "my-project");
      EvListSnapshots (Some "my-project") (Some true)]).
Proof. reflexivity. Qed.

Example status_when_provider_down :
  devbox_status None provider_down [] =
    (inl (RuntimeError_from "Failed to retrieve status: Boom" Boom),
     [EvDevBoxManager; EvListInstances None (Some true);
      EvLoggerException "devbox_status failed"]).
Proof. reflexivity. Qed.

Example terminate_ghost :
  devbox_terminate "ghost" empty_account [] =
    (inr (PDict [("success", PBool false);
                 ("message", PStr "Instance not found");
                 ("project", PNone);
                 ("instance_id", PNone)]),
     [EvDevBoxManager; EvListInstances (Some "ghost") None;
      EvDescribeInstances ["ghost"]; EvTerminateInstance "ghost"]).
Proof. reflexivity. Qed.

Example resolve_by_instance_id :
  _resolve_termination_target "i-0abc" untagged_instance [] =
    (inr (PStr "i-0abc", PNone),
     [EvListInstances (Some "i-0abc") None; EvDescribeInstances ["i-0abc"]]).
Proof. reflexivity. Qed.

(** ** Histories *)

Lemma terminate_calls_app (h h' : history) :
  terminate_calls (h ++ h')%list = (terminate_calls h ++ terminate_calls h')%list.
Proof.
  induction h as [| ev h0 IH]; [reflexivity |].
  destruct ev; cbn [app terminate_calls]; rewrite IH; reflexivity.
Qed.

Lemma describe_calls_app (h h' : history) :
  describe_calls (h ++ h')%list = (describe_calls h ++ describe_calls h')%list.
Proof.
  induction h as [| ev h0 IH]; [reflexivity |].
  destruct ev; cbn [app describe_calls]; rewrite IH; reflexivity.
Qed.

(** ** The target resolver *)

Section Resolver.

Variable env : Collaborators.
Variable identifier : string.
Variable h : history.

(** The history right after the first-phase query. *)
Let h1 : history := (h ++ [EvListInstances (Some identifier) None])%list.

(** The direct lookup makes one provider call, whatever comes of it. *)
Lemma direct_id_lookup_trace (h0 : history) :
  trace (direct_id_lookup identifier env h0) =
    (h0 ++ [EvDescribeInstances [identifier]])%list.
Proof.
  unfold_server. unfold trace.
  destruct (describe_instances env h0 [identifier]) as [e | response];
    [reflexivity |].
  destruct (first_instance response) as [e | instance]; [reflexivity |].
  destruct (py_get instance "Tags" (PList [])) as [e | tags]; [reflexivity |].
  destruct (get_project_tag env tags) as [e | tag]; [reflexivity |].
  destruct (py_get instance "InstanceId" PNone); reflexivity.
Qed.

(** With no match by project tag the resolver is the guarded direct
    lookup. *)
Lemma resolve_zero_matches :
  list_instances env h (Some identifier) None = inr [] ->
  _resolve_termination_target identifier env h =
    try_except (direct_id_lookup identifier)
               (fun _ => ret (PNone, PNone)) env h1.
Proof.
  intros Hlist. unfold _resolve_termination_target, manager_list_instances, call.
  cbn [bind ret Monad_M m_bind m_ret]. rewrite Hlist. reflexivity.
Qed.

(** A failure swallowed by the guard: the resolver answers with two nulls. *)
Lemma resolve_swallows (e : exn) (h2 : history) :
  list_instances env h (Some identifier) None = inr [] ->
  direct_id_lookup identifier env h1 = (inl e, h2) ->
  is_Exception e = true ->
  _resolve_termination_target identifier env h = (inr (PNone, PNone), h2).
Proof.
  intros Hlist Hbody Hexc. rewrite (resolve_zero_matches Hlist).
  unfold try_except. rewrite Hbody, Hexc. reflexivity.
Qed.

(** A failed first-phase query leaves the resolver at once. *)
Lemma resolve_first_phase_raises (e : exn) :
  list_instances env h (Some identifier) None = inl e ->
  _resolve_termination_target identifier env h = (inl e, h1).
Proof.
  intros Hlist. unfold _resolve_termination_target, manager_list_instances, call.
  cbn [bind ret Monad_M m_bind m_ret]. rewrite Hlist. reflexivity.
Qed.

(** The resolver never terminates anything. *)
Lemma resolve_terminates_nothing :
  terminate_calls (trace (_resolve_termination_target identifier env h)) =
    terminate_calls h.
Proof.
  destruct (list_instances env h (Some identifier) None) as [e | records] eqn:Hlist.
  - rewrite (resolve_first_phase_raises _ Hlist). unfold trace, h1. cbn [snd].
    rewrite terminate_calls_app. cbn. apply app_nil_r.
  - destruct records as [| r0 [| r1 rest]].
    + rewrite (resolve_zero_matches Hlist).
      pose proof (direct_id_lookup_trace h1) as Ht. unfold trace in *.
      unfold try_except.
      destruct (direct_id_lookup identifier env h1) as [[e | v] h2];
        cbn [snd] in Ht; subst h2.
      * destruct (is_Exception e); cbn [snd ret Monad_M m_ret];
          unfold h1; rewrite !terminate_calls_app; cbn; rewrite !app_nil_r;
          reflexivity.
      * cbn [snd]. unfold h1. rewrite !terminate_calls_app. cbn.
        rewrite !app_nil_r. reflexivity.
    + unfold_server. rewrite Hlist. cbn.
      destruct (py_get r0 "InstanceId" PNone); cbn;
        [| destruct (py_get r0 "Project" PNone); cbn];
        rewrite terminate_calls_app; cbn; apply app_nil_r.
    + unfold_server. rewrite Hlist. cbn.
      rewrite terminate_calls_app; cbn; apply app_nil_r.
Qed.

(** One record listed: its two fields are read, nothing else happens. *)
Lemma resolve_single_record (record : list (string * pyval)) :
  list_instances env h (Some identifier) None = inr [PDict record] ->
  _resolve_termination_target identifier env h =
    (inr (dict_get record "InstanceId" PNone, dict_get record "Project" PNone),
     h1).
Proof.
  intros Hlist. unfold_server. rewrite Hlist. reflexivity.
Qed.

(** C2: when the query by project tag returns exactly one record, the
    resolver returns that record's instance id and project, and the history
    holds the query alone: no direct lookup by id is made. *)
Theorem resolve_unique_match (record : list (string * pyval)) :
  list_instances env h (Some identifier) None = inr [PDict record] ->
  _resolve_termination_target identifier env h =
    (inr (dict_get record "InstanceId" PNone, dict_get record "Project" PNone),
     h1)
  /\ describe_calls (trace (_resolve_termination_target identifier env h)) =
       describe_calls h.
Proof.
  intros Hlist.
  pose proof (resolve_single_record record Hlist) as Hrun.
  split; [exact Hrun |].
  rewrite Hrun. unfold trace, h1. cbn [snd].
  rewrite describe_calls_app. cbn. apply app_nil_r.
Qed.

(** C3: when the query by project tag returns two or more records, the
    resolver returns two nulls as a value (it does not raise), and no direct
    lookup by id is made. *)
Theorem resolve_ambiguous (records : list pyval) :
  list_instances env h (Some identifier) None = inr records ->
  2 <= length records ->
  _resolve_termination_target identifier env h = (inr (PNone, PNone), h1)
  /\ describe_calls (trace (_resolve_termination_target identifier env h)) =
       describe_calls h.
Proof.
  intros Hlist Hlen.
  assert (Hrun : _resolve_termination_target identifier env h =
                   (inr (PNone, PNone), h1)).
  { unfold_server. rewrite Hlist.
    destruct records as [| r0 [| r1 rest]]; cbn in Hlen; try lia.
    reflexivity. }
  split; [exact Hrun |].
  rewrite Hrun. unfold trace, h1. cbn [snd].
  rewrite describe_calls_app. cbn. apply app_nil_r.
Qed.

(** C4: when the query by project tag returns no record, the resolver looks
    the identifier up as an instance id, once.  If that lookup fails, be it
    the provider call that raises or the reading of its answer, the resolver
    returns two nulls and the failure is not raised. *)
Theorem resolve_fallback_swallows :
  list_instances env h (Some identifier) None = inr [] ->
  trace (_resolve_termination_target identifier env h) =
    (h1 ++ [EvDescribeInstances [identifier]])%list
  /\ (forall e,
         describe_instances env h1 [identifier] = inl e ->
         is_Exception e = true ->
         _resolve_termination_target identifier env h =
           (inr (PNone, PNone), (h1 ++ [EvDescribeInstances [identifier]])%list))
  /\ (forall e h2,
         direct_id_lookup identifier env h1 = (inl e, h2) ->
         is_Exception e = true ->
         _resolve_termination_target identifier env h = (inr (PNone, PNone), h2)).
Proof.
  intros Hlist. split; [| split].
  - rewrite (resolve_zero_matches Hlist).
    pose proof (direct_id_lookup_trace h1) as Ht. unfold trace in *.
    unfold try_except.
    destruct (direct_id_lookup identifier env h1) as [[e | v] h2];
      cbn [snd] in Ht; subst h2; [| reflexivity].
    destruct (is_Exception e); reflexivity.
  - intros e Hdesc Hexc. apply (resolve_swallows e); trivial.
    unfold_server. rewrite Hdesc. reflexivity.
  - intros e h2 Hbody Hexc. exact (resolve_swallows e h2 Hlist Hbody Hexc).
Qed.

(** C9: on the direct-id path, when the helper finds no project tag (it
    yields null) or extracts the empty string, the returned project is
    null; the returned instance id is the one in the provider's record,
    whatever identifier the caller gave. *)
Theorem resolve_direct_normalises_project
        (response : pyval) (instance : list (string * pyval)) (tag : pyval) :
  list_instances env h (Some identifier) None = inr [] ->
  describe_instances env h1 [identifier] = inr response ->
  first_instance response = inr (PDict instance) ->
  get_project_tag env (dict_get instance "Tags" (PList [])) = inr tag ->
  tag = PNone \/ tag = PStr "" ->
  _resolve_termination_target identifier env h =
    (inr (dict_get instance "InstanceId" PNone, PNone),
     (h1 ++ [EvDescribeInstances [identifier]])%list).
Proof.
  intros Hlist Hdesc Hfirst Htag Hfalsy.
  rewrite (resolve_zero_matches Hlist).
  unfold_server. rewrite Hdesc, Hfirst. cbn. rewrite Htag.
  destruct Hfalsy; subst tag; reflexivity.
Qed.

End Resolver.

(** ** Failures met inside the operations *)

Lemma py_get_raises_Exception (v : pyval) (k : string) (d : pyval) (e : exn) :
  py_get v k d = inl e -> is_Exception e = true.
Proof.
  destruct v; cbn; intros H; inversion H; reflexivity.
Qed.

Lemma py_getitem_key_raises_Exception (v : pyval) (k : string) (e : exn) :
  py_getitem_key v k = inl e -> is_Exception e = true.
Proof.
  destruct v; cbn; try (intros H; inversion H; reflexivity).
  destruct (dict_lookup d k); intros H; inversion H; reflexivity.
Qed.

Lemma py_getitem0_raises_Exception (v : pyval) (e : exn) :
  py_getitem0 v = inl e -> is_Exception e = true.
Proof.
  destruct v as [| b | z | s | l | d]; cbn;
    try (intros H; inversion H; reflexivity).
  - destruct s; intros H; inversion H; reflexivity.
  - destruct l; cbn; intros H; inversion H; reflexivity.
Qed.

Lemma first_instance_raises_Exception (response : pyval) (e : exn) :
  first_instance response = inl e -> is_Exception e = true.
Proof.
  unfold first_instance.
  destruct (py_getitem_key response "Reservations") as [e1 | rs] eqn:H1.
  { intros H; inversion H; subst. eapply py_getitem_key_raises_Exception; eauto. }
  destruct (py_getitem0 rs) as [e2 | r] eqn:H2.
  { intros H; inversion H; subst. eapply py_getitem0_raises_Exception; eauto. }
  destruct (py_getitem_key r "Instances") as [e3 | insts] eqn:H3.
  { intros H; inversion H; subst. eapply py_getitem_key_raises_Exception; eauto. }
  apply py_getitem0_raises_Exception.
Qed.

Section Failures.

Variable env : Collaborators.
Hypothesis Hroe : raises_only_Exceptions env.

Lemma direct_id_lookup_raises_Exception
      (identifier : string) (h h' : history) (e : exn) :
  direct_id_lookup identifier env h = (inl e, h') -> is_Exception e = true.
Proof.
  unfold_server.
  destruct (describe_instances env h [identifier]) as [e0 | response] eqn:Hd.
  { intros H; inversion H; subst. eapply roe_describe; eauto. }
  destruct (first_instance response) as [e1 | instance] eqn:Hf.
  { intros H; inversion H; subst. eapply first_instance_raises_Exception; eauto. }
  destruct (py_get instance "Tags" (PList [])) as [e2 | tags] eqn:Ht.
  { intros H; inversion H; subst. eapply py_get_raises_Exception; eauto. }
  destruct (get_project_tag env tags) as [e3 | tag] eqn:Hp.
  { intros H; inversion H; subst. eapply roe_project_tag; eauto. }
  destruct (py_get instance "InstanceId" PNone) as [e4 | iid] eqn:Hi.
  { intros H; inversion H; subst. eapply py_get_raises_Exception; eauto. }
  intros H; inversion H.
Qed.

Lemma resolve_raises_Exception
      (identifier : string) (h h' : history) (e : exn) :
  _resolve_termination_target identifier env h = (inl e, h') ->
  is_Exception e = true.
Proof.
  destruct (list_instances env h (Some identifier) None) as [e0 | records] eqn:Hlist.
  - rewrite (resolve_first_phase_raises _ _ _ _ Hlist).
    intros H; inversion H; subst. eapply roe_instances; eauto.
  - destruct records as [| r0 [| r1 rest]].
    + rewrite (resolve_zero_matches _ _ _ Hlist). unfold try_except.
      destruct (direct_id_lookup identifier env
                  (h ++ [EvListInstances (Some identifier) None])%list)
        as [[e1 | v] h2] eqn:Hbody; [| intros H; inversion H].
      rewrite (direct_id_lookup_raises_Exception _ _ _ _ Hbody).
      intros H; inversion H.
    + unfold_server. rewrite Hlist. cbn.
      destruct (py_get r0 "InstanceId" PNone) as [e1 | iid] eqn:Hi; cbn.
      { intros H; inversion H; subst. eapply py_get_raises_Exception; eauto. }
      destruct (py_get r0 "Project" PNone) as [e2 | proj] eqn:Hp; cbn.
      { intros H; inversion H; subst. eapply py_get_raises_Exception; eauto. }
      intros H; inversion H.
    + unfold_server. rewrite Hlist. cbn. intros H; inversion H.
Qed.

Lemma status_body_raises_Exception
      (project : option string) (h h' : history) (e : exn) :
  devbox_status_body project env h = (inl e, h') -> is_Exception e = true.
Proof.
  unfold_server.
  destruct (DevBoxManager env h) as [e0 | []] eqn:Hm.
  { intros H; inversion H; subst. eapply roe_manager; eauto. }
  destruct (list_instances env _ project (Some true)) as [e1 | insts] eqn:Hi.
  { intros H; inversion H; subst. eapply roe_instances; eauto. }
  destruct (list_volumes env _ project) as [e2 | vs] eqn:Hv.
  { intros H; inversion H; subst. eapply roe_volumes; eauto. }
  destruct (list_snapshots env _ project (Some true)) as [e3 | ss] eqn:Hs.
  { intros H; inversion H; subst. eapply roe_snapshots; eauto. }
  intros H; inversion H.
Qed.

Lemma terminate_body_raises_Exception
      (identifier : string) (h h' : history) (e : exn) :
  devbox_terminate_body identifier env h = (inl e, h') -> is_Exception e = true.
Proof.
  unfold devbox_terminate_body, manager_new, manager_terminate_instance, call.
  cbn [bind ret Monad_M]. unfold m_bind, m_ret.
  destruct (DevBoxManager env h) as [e0 | []] eqn:Hm.
  { intros H; inversion H; subst. eapply roe_manager; eauto. }
  destruct (_resolve_termination_target identifier env
              (h ++ [EvDevBoxManager])%list)
    as [[e1 | [iid proj]] h2] eqn:Hr.
  { intros H; inversion H; subst. exact (resolve_raises_Exception _ _ _ _ Hr). }
  destruct (terminate_instance env h2 identifier) as [e2 | [s m]] eqn:Ht.
  { intros H; inversion H; subst. eapply roe_terminate; eauto. }
  intros H; inversion H.
Qed.

End Failures.

(** ** The operation facade *)

Section Facade.

Variable env : Collaborators.

(** The response of a successful terminate. *)
Let terminate_response (success message project instance_id : pyval) : pyval :=
  PDict [("success", success); ("message", message);
         ("project", project); ("instance_id", instance_id)].

(** Once the manager is built and the resolver has returned, the body of
    [devbox_terminate] calls [terminate_instance] on the identifier. *)
Lemma terminate_body_after_resolution
      (identifier : string) (h h2 : history) (instance_id project : pyval) :
  DevBoxManager env h = inr tt ->
  _resolve_termination_target identifier env (h ++ [EvDevBoxManager])%list =
    (inr (instance_id, project), h2) ->
  devbox_terminate_body identifier env h =
    (match terminate_instance env h2 identifier with
     | inl e => inl e
     | inr (success, message) =>
         inr (terminate_response success message project instance_id)
     end,
     (h2 ++ [EvTerminateInstance identifier])%list).
Proof.
  intros Hm Hr.
  unfold devbox_terminate_body, manager_new, manager_terminate_instance, call.
  cbn [bind ret Monad_M]. unfold m_bind, m_ret. rewrite Hm, Hr.
  destruct (terminate_instance env h2 identifier) as [e | [s m]]; reflexivity.
Qed.

(** While the resolver raises, the body of [devbox_terminate] stops there. *)
Lemma terminate_body_resolver_raises
      (identifier : string) (h h2 : history) (e : exn) :
  DevBoxManager env h = inr tt ->
  _resolve_termination_target identifier env (h ++ [EvDevBoxManager])%list =
    (inl e, h2) ->
  devbox_terminate_body identifier env h = (inl e, h2).
Proof.
  intros Hm Hr.
  unfold devbox_terminate_body, manager_new, manager_terminate_instance, call.
  cbn [bind ret Monad_M]. unfold m_bind, m_ret. rewrite Hm, Hr. reflexivity.
Qed.

(** The handlers of the three operations add one log record and raise. *)
Lemma terminate_of_body (identifier : string) (h : history) :
  devbox_terminate identifier env h =
    match devbox_terminate_body identifier env h with
    | (inr v, h') => (inr v, h')
    | (inl e, h') =>
        if is_Exception e
        then (inl (RuntimeError_from
                     ("Failed to terminate instance: " ++ exn_str e) e),
              (h' ++ [EvLoggerException "devbox_terminate failed"])%list)
        else (inl e, h')
    end.
Proof.
  unfold devbox_terminate, try_except.
  destruct (devbox_terminate_body identifier env h) as [[e | v] h'];
    [| reflexivity].
  destruct (is_Exception e); reflexivity.
Qed.

Lemma status_of_body (project : option string) (h : history) :
  devbox_status project env h =
    match devbox_status_body project env h with
    | (inr v, h') => (inr v, h')
    | (inl e, h') =>
        if is_Exception e
        then (inl (RuntimeError_from
                     ("Failed to retrieve status: " ++ exn_str e) e),
              (h' ++ [EvLoggerException "devbox_status failed"])%list)
        else (inl e, h')
    end.
Proof.
  unfold devbox_status, try_except.
  destruct (devbox_status_body project env h) as [[e | v] h'];
    [| reflexivity].
  destruct (is_Exception e); reflexivity.
Qed.

(** C5: a successful [devbox_status(project)] has built the manager and
    then made exactly the three queries, once each and each with the given
    project filter (absent or not); its value holds the three answers as
    they came, one per resource kind, in the order the collaborator gave. *)
Theorem status_success_queries_once
        (project : option string) (h h' : history) (v : pyval) :
  devbox_status project env h = (inr v, h') ->
  exists instances volumes snapshots,
    list_instances env (h ++ [EvDevBoxManager])%list project (Some true) =
      inr instances
    /\ list_volumes env
         (h ++ [EvDevBoxManager; EvListInstances project (Some true)])%list
         project = inr volumes
    /\ list_snapshots env
         (h ++ [EvDevBoxManager; EvListInstances project (Some true);
                EvListVolumes project])%list
         project (Some true) = inr snapshots
    /\ h' = (h ++ [EvDevBoxManager; EvListInstances project (Some true);
                   EvListVolumes project;
                   EvListSnapshots project (Some true)])%list
    /\ v = PDict [("instances", PList instances);
                  ("volumes", PList volumes);
                  ("snapshots", PList snapshots)].
Proof.
  rewrite status_of_body. unfold_server. unfold m_bind, m_ret.
  rewrite <- !app_assoc. cbn [app].
  destruct (DevBoxManager env h) as [e0 | []].
  { destruct (is_Exception e0); discriminate. }
  destruct (list_instances env _ project (Some true)) as [e1 | instances].
  { destruct (is_Exception e1); discriminate. }
  destruct (list_volumes env _ project) as [e2 | volumes].
  { destruct (is_Exception e2); discriminate. }
  destruct (list_snapshots env _ project (Some true)) as [e3 | snapshots].
  { destruct (is_Exception e3); discriminate. }
  intros H. inversion H; subst.
  exists instances, volumes, snapshots. repeat split; reflexivity.
Qed.

(** C6: when any one of the three queries of [devbox_status] fails, at the
    point where the operation would make it and whatever the other two do,
    the operation returns no value: it raises one [RuntimeError] whose text
    is the status prefix followed by the description of the failure met. *)
Theorem status_any_query_failure (project : option string) (h : history) :
  raises_only_Exceptions env ->
  let h1 := (h ++ [EvDevBoxManager])%list in
  let h2 := (h1 ++ [EvListInstances project (Some true)])%list in
  let h3 := (h2 ++ [EvListVolumes project])%list in
  (exists e, list_instances env h1 project (Some true) = inl e)
  \/ (exists e, list_volumes env h2 project = inl e)
  \/ (exists e, list_snapshots env h3 project (Some true) = inl e) ->
  exists e h',
    (DevBoxManager env h = inl e
     \/ list_instances env h1 project (Some true) = inl e
     \/ list_volumes env h2 project = inl e
     \/ list_snapshots env h3 project (Some true) = inl e)
    /\ devbox_status project env h =
         (inl (RuntimeError_from ("Failed to retrieve status: " ++ exn_str e) e),
          (h' ++ [EvLoggerException "devbox_status failed"])%list).
Proof.
  intros Hroe h1 h2 h3 Hfail.
  rewrite status_of_body. unfold_server. unfold m_bind, m_ret.
  fold h1. fold h2. fold h3.
  destruct (DevBoxManager env h) as [e0 | []] eqn:Hm.
  { exists e0, h1. rewrite (roe_manager _ Hroe _ _ Hm). auto. }
  destruct (list_instances env h1 project (Some true)) as [e1 | instances] eqn:Hi.
  { exists e1, h2. rewrite (roe_instances _ Hroe _ _ _ _ Hi). auto. }
  destruct (list_volumes env h2 project) as [e2 | volumes] eqn:Hv.
  { exists e2, h3. rewrite (roe_volumes _ Hroe _ _ _ Hv). auto. }
  destruct (list_snapshots env h3 project (Some true)) as [e3 | snapshots] eqn:Hs.
  { exists e3, (h3 ++ [EvListSnapshots project (Some true)])%list.
    rewrite (roe_snapshots _ Hroe _ _ _ _ Hs). auto 6. }
  destruct Hfail as [[e H] | [[e H] | [e H]]]; discriminate.
Qed.

(** C7: a failure that reaches the boundary of an operation is logged and
    replaced by one [RuntimeError] raised from it, whose text is the
    operation's prefix followed by the description of the failure; when the
    collaborators raise instances of [Exception] only, every failure of
    every operation has this form, so the class never varies. *)
Theorem failures_are_normalized :
  (forall project instance_type key_pair volume_size base_ami param_prefix h e,
      launch_devbox env h
        (mkLaunchArgs project instance_type key_pair volume_size base_ami
                      param_prefix false) = inl e ->
      is_Exception e = true ->
      devbox_launch project instance_type key_pair volume_size base_ami
                    param_prefix env h =
        (inl (RuntimeError_from ("Failed to launch devbox: " ++ exn_str e) e),
         (h ++ [EvLaunchDevbox
                  (mkLaunchArgs project instance_type key_pair volume_size
                                base_ami param_prefix false);
                EvLoggerException "devbox_launch failed"])%list))
  /\ (forall project h e h',
         devbox_status_body project env h = (inl e, h') ->
         is_Exception e = true ->
         devbox_status project env h =
           (inl (RuntimeError_from ("Failed to retrieve status: " ++ exn_str e) e),
            (h' ++ [EvLoggerException "devbox_status failed"])%list))
  /\ (forall identifier h e h',
         devbox_terminate_body identifier env h = (inl e, h') ->
         is_Exception e = true ->
         devbox_terminate identifier env h =
           (inl (RuntimeError_from
                   ("Failed to terminate instance: " ++ exn_str e) e),
            (h' ++ [EvLoggerException "devbox_terminate failed"])%list))
  /\ (raises_only_Exceptions env ->
      (forall project instance_type key_pair volume_size base_ami param_prefix
              h f h',
          devbox_launch project instance_type key_pair volume_size base_ami
                        param_prefix env h = (inl f, h') ->
          exists e, f = RuntimeError_from
                          ("Failed to launch devbox: " ++ exn_str e) e)
      /\ (forall project h f h',
             devbox_status project env h = (inl f, h') ->
             exists e, f = RuntimeError_from
                             ("Failed to retrieve status: " ++ exn_str e) e)
      /\ (forall identifier h f h',
             devbox_terminate identifier env h = (inl f, h') ->
             exists e, f = RuntimeError_from
                             ("Failed to terminate instance: " ++ exn_str e) e)).
Proof.
  split; [| split; [| split]].
  - intros project instance_type key_pair volume_size base_ami param_prefix
           h e Hl He.
    unfold_server. rewrite Hl, He. cbn. rewrite <- app_assoc. reflexivity.
  - intros project h e h' Hb He. rewrite status_of_body, Hb, He. reflexivity.
  - intros identifier h e h' Hb He. rewrite terminate_of_body, Hb, He.
    reflexivity.
  - intros Hroe. split; [| split].
    + intros project instance_type key_pair volume_size base_ami param_prefix
             h f h'.
      unfold_server.
      destruct (launch_devbox env h _) as [e | v] eqn:Hl; [| discriminate].
      rewrite (roe_launch _ Hroe _ _ _ Hl). cbn. intros H; inversion H.
      exists e; reflexivity.
    + intros project h f h'. rewrite status_of_body.
      destruct (devbox_status_body project env h) as [[e | v] h0] eqn:Hb;
        [| discriminate].
      rewrite (status_body_raises_Exception _ Hroe _ _ _ _ Hb).
      intros H; inversion H. exists e; reflexivity.
    + intros identifier h f h'. rewrite terminate_of_body.
      destruct (devbox_terminate_body identifier env h) as [[e | v] h0] eqn:Hb;
        [| discriminate].
      rewrite (terminate_body_raises_Exception _ Hroe _ _ _ _ Hb).
      intros H; inversion H. exists e; reflexivity.
Qed.

(** C8: the value of a successful [devbox_terminate] is made of the pair
    answered by [terminate_instance] and the pair returned by the resolver,
    with nothing comparing the two.  In the scenario of one instance tagged
    [my-project] and a collaborator answering [(True, "Terminating")], the
    value is the four-field record with that instance's id. *)
Theorem terminate_response_composition :
  (forall identifier h h' v,
      devbox_terminate identifier env h = (inr v, h') ->
      exists instance_id project success message h2,
        _resolve_termination_target identifier env
          (h ++ [EvDevBoxManager])%list = (inr (instance_id, project), h2)
        /\ terminate_instance env h2 identifier = inr (success, message)
        /\ h' = (h2 ++ [EvTerminateInstance identifier])%list
        /\ v = PDict [("success", success); ("message", message);
                      ("project", project); ("instance_id", instance_id)])
  /\ (forall h record instance_id,
         DevBoxManager env h = inr tt ->
         list_instances env (h ++ [EvDevBoxManager])%list
                        (Some "my-project") None = inr [PDict record] ->
         dict_lookup record "InstanceId" = Some instance_id ->
         dict_lookup record "Project" = Some (PStr "my-project") ->
         terminate_instance env
           (h ++ [EvDevBoxManager; EvListInstances (Some "my-project") None])%list
           "my-project" = inr (PBool true, PStr "Terminating") ->
         devbox_terminate "my-project" env h =
           (inr (PDict [("success", PBool true);
                        ("message", PStr "Terminating");
                        ("project", PStr "my-project");
                        ("instance_id", instance_id)]),
            (h ++ [EvDevBoxManager; EvListInstances (Some "my-project") None;
                   EvTerminateInstance "my-project"])%list)).
Proof.
  split.
  - intros identifier h h' v. rewrite terminate_of_body.
    destruct (DevBoxManager env h) as [e0 | []] eqn:Hm.
    { unfold devbox_terminate_body, manager_new, call.
      cbn [bind ret Monad_M]. unfold m_bind. rewrite Hm.
      destruct (is_Exception e0); discriminate. }
    destruct (_resolve_termination_target identifier env
                (h ++ [EvDevBoxManager])%list)
      as [[e1 | [instance_id project]] h2] eqn:Hr.
    { rewrite (terminate_body_resolver_raises _ _ _ _ Hm Hr).
      destruct (is_Exception e1); discriminate. }
    rewrite (terminate_body_after_resolution _ _ _ _ _ Hm Hr).
    destruct (terminate_instance env h2 identifier) as [e2 | [success message]]
      eqn:Ht.
    { destruct (is_Exception e2); discriminate. }
    intros H; inversion H; subst.
    exists instance_id, project, success, message, h2. auto.
  - intros h record instance_id Hm Hlist Hid Hproj Hterm.
    pose proof (resolve_single_record env "my-project"
                  (h ++ [EvDevBoxManager])%list record Hlist) as Hr.
    unfold dict_get in Hr. rewrite Hid, Hproj in Hr.
    rewrite terminate_of_body, (terminate_body_after_resolution _ _ _ _ _ Hm Hr).
    rewrite <- ?app_assoc. cbn [app]. rewrite <- ?app_assoc in Hterm.
    cbn [app] in Hterm. rewrite Hterm. reflexivity.
Qed.

(** C10: a failure of the first-phase query leaves the resolver as it is,
    so [devbox_terminate] ends without any call to [terminate_instance],
    with its normalized failure when the failure is an [Exception].  A
    failure of the second-phase lookup is instead turned into two nulls, and
    [terminate_instance] is then called. *)
Theorem terminate_first_phase_failure (identifier : string) (h : history) :
  DevBoxManager env h = inr tt ->
  let h1 := (h ++ [EvDevBoxManager])%list in
  let h2 := (h1 ++ [EvListInstances (Some identifier) None])%list in
  (forall e,
      list_instances env h1 (Some identifier) None = inl e ->
      _resolve_termination_target identifier env h1 = (inl e, h2)
      /\ terminate_calls (trace (devbox_terminate identifier env h)) =
           terminate_calls h
      /\ (is_Exception e = true ->
          devbox_terminate identifier env h =
            (inl (RuntimeError_from
                    ("Failed to terminate instance: " ++ exn_str e) e),
             (h2 ++ [EvLoggerException "devbox_terminate failed"])%list)))
  /\ (forall e,
         list_instances env h1 (Some identifier) None = inr [] ->
         describe_instances env h2 [identifier] = inl e ->
         is_Exception e = true ->
         _resolve_termination_target identifier env h1 =
           (inr (PNone, PNone), (h2 ++ [EvDescribeInstances [identifier]])%list)
         /\ terminate_calls (trace (devbox_terminate identifier env h)) =
              (terminate_calls h ++ [identifier])%list).
Proof.
  intros Hm h1 h2. split.
  - intros e Hlist.
    pose proof (resolve_first_phase_raises env identifier h1 e Hlist) as Hr.
    fold h2 in Hr.
    pose proof (terminate_body_resolver_raises _ _ _ _ Hm Hr) as Hb.
    split; [exact Hr | split].
    + rewrite terminate_of_body, Hb. unfold trace, h2, h1.
      destruct (is_Exception e); cbn [snd];
        rewrite !terminate_calls_app; cbn; rewrite !app_nil_r; reflexivity.
    + intros He. rewrite terminate_of_body, Hb, He. reflexivity.
  - intros e Hlist Hdesc He.
    assert (Hr : _resolve_termination_target identifier env h1 =
                   (inr (PNone, PNone),
                    (h2 ++ [EvDescribeInstances [identifier]])%list)).
    { apply (resolve_swallows env identifier h1 e); trivial.
      fold h2. unfold_server. rewrite Hdesc. reflexivity. }
    split; [exact Hr |].
    rewrite terminate_of_body, (terminate_body_after_resolution _ _ _ _ _ Hm Hr).
    unfold trace, h2, h1.
    destruct (terminate_instance env _ identifier) as [e2 | [s m]];
      [destruct (is_Exception e2) |]; cbn [snd];
      rewrite !terminate_calls_app; cbn; rewrite !app_nil_r; reflexivity.
Qed.

(** C1 (as amended): once the manager is built and the resolver has
    returned a pair, two nulls included, [devbox_terminate] calls
    [terminate_instance] exactly once, right after the resolution, with the
    identifier it was given; the resolved pair plays no part in the call. *)
Theorem terminate_invoked_once_after_resolution
        (identifier : string) (h h2 : history) (resolved : pyval * pyval) :
  DevBoxManager env h = inr tt ->
  _resolve_termination_target identifier env (h ++ [EvDevBoxManager])%list =
    (inr resolved, h2) ->
  terminate_calls (trace (devbox_terminate identifier env h)) =
    (terminate_calls h ++ [identifier])%list
  /\ exists h3,
      trace (devbox_terminate identifier env h) =
        (h2 ++ EvTerminateInstance identifier :: h3)%list
      /\ terminate_calls h3 = [].
Proof.
  intros Hm Hr. destruct resolved as [instance_id project].
  pose proof (resolve_terminates_nothing env identifier
                (h ++ [EvDevBoxManager])%list) as Hnone.
  rewrite Hr in Hnone. unfold trace in Hnone. cbn [snd] in Hnone.
  rewrite terminate_calls_app in Hnone. cbn in Hnone.
  rewrite app_nil_r in Hnone.
  rewrite terminate_of_body, (terminate_body_after_resolution _ _ _ _ _ Hm Hr).
  unfold trace.
  destruct (terminate_instance env h2 identifier) as [e | [s m]];
    [destruct (is_Exception e) |]; cbn [snd].
  - split.
    + rewrite !terminate_calls_app, Hnone. cbn. rewrite app_nil_r. reflexivity.
    + exists [EvLoggerException "devbox_terminate failed"].
      rewrite <- app_assoc. split; reflexivity.
  - split.
    + rewrite !terminate_calls_app, Hnone. reflexivity.
    + exists []. split; reflexivity.
  - split.
    + rewrite !terminate_calls_app, Hnone. reflexivity.
    + exists []. split; reflexivity.
Qed.

End Facade.

(** ** The claims on concrete collaborators *)

Lemma project_of_raises_Exception (tags : pyval) (e : exn) :
  project_of tags = inl e -> is_Exception e = true.
Proof.
  destruct tags; cbn; intros H; inversion H; reflexivity.
Defined.

Lemma provider_down_raises_only_Exceptions :
  raises_only_Exceptions provider_down.
Proof.
  constructor; cbn; intros;
    try (match goal with H : inl _ = inl _ |- _ => inversion H end; reflexivity);
    try discriminate.
  eapply project_of_raises_Exception; eassumption.
Defined.

(** C1 fails as stated: when listing the instances raises, the operation
    ends with its normalized failure and [terminate_instance] is never
    called, although it would have succeeded. *)
Lemma terminate_skipped_when_listing_fails :
  devbox_terminate "my-project" listing_down [] =
    (inl (RuntimeError_from "Failed to terminate instance: Boom" Boom),
     [EvDevBoxManager; EvListInstances (Some "my-project") None;
      EvLoggerException "devbox_terminate failed"])
  /\ terminate_calls (trace (devbox_terminate "my-project" listing_down [])) <>
       ["my-project"].
Proof.
  split; [reflexivity |]. vm_compute. discriminate.
Qed.

Lemma terminate_invoked_once_witness :
  terminate_calls (trace (devbox_terminate "ghost" empty_account [])) = ["ghost"].
Proof.
  refine (proj1 (terminate_invoked_once_after_resolution
                   empty_account "ghost" []
                   [EvDevBoxManager; EvListInstances (Some "ghost") None;
                    EvDescribeInstances ["ghost"]]
                   (PNone, PNone) _ _)); reflexivity.
Defined.

Lemma resolve_unique_match_witness :
  _resolve_termination_target "my-project" one_instance [] =
    (inr (PStr "i-12345", PStr "my-project"),
     [EvListInstances (Some "my-project") None]).
Proof.
  refine (proj1 (resolve_unique_match one_instance "my-project" []
                   my_instance _)).
  reflexivity.
Defined.

Lemma resolve_ambiguous_witness :
  _resolve_termination_target "my-project" two_instances [] =
    (inr (PNone, PNone), [EvListInstances (Some "my-project") None]).
Proof.
  refine (proj1 (resolve_ambiguous two_instances "my-project" []
                   [PDict my_instance; PDict other_instance] _ _)).
  - reflexivity.
  - apply le_n.
Defined.

Lemma resolve_fallback_swallows_witness :
  _resolve_termination_target "ghost" empty_account [] =
    (inr (PNone, PNone),
     [EvListInstances (Some "ghost") None; EvDescribeInstances ["ghost"]]).
Proof.
  refine (proj1 (proj2 (resolve_fallback_swallows empty_account "ghost" [] _))
                NotFound _ _); reflexivity.
Defined.

Lemma resolve_direct_normalises_project_witness :
  _resolve_termination_target "I-0ABC" untagged_instance [] =
    (inr (PStr "i-0abc", PNone),
     [EvListInstances (Some "I-0ABC") None; EvDescribeInstances ["I-0ABC"]]).
Proof.
  refine (resolve_direct_normalises_project
            untagged_instance "I-0ABC" []
            (describe_response (PDict untagged)) untagged PNone _ _ _ _ _);
    try reflexivity.
  left; reflexivity.
Defined.

Lemma status_success_queries_once_witness :
  exists instances volumes snapshots,
    devbox_status (Some "my-project") one_instance [] =
      (inr (PDict [("instances", PList instances);
                   ("volumes", PList volumes);
                   ("snapshots", PList snapshots)]),
       [EvDevBoxManager;
        EvListInstances (Some "my-project") (Some true);
        EvListVolumes (Some "my-project");
        EvListSnapshots (Some "my-project") (Some true)]).
Proof.
  destruct (status_success_queries_once
              one_instance (Some "my-project") [] _ _ eq_refl)
    as (instances & volumes & snapshots & _ & _ & _ & _ & Hv).
  exists instances, volumes, snapshots. rewrite <- Hv. reflexivity.
Defined.

Lemma status_any_query_failure_witness :
  exists e h',
    devbox_status None provider_down [] =
      (inl (RuntimeError_from ("Failed to retrieve status: " ++ exn_str e) e),
       (h' ++ [EvLoggerException "devbox_status failed"])%list).
Proof.
  destruct (status_any_query_failure
              provider_down None [] provider_down_raises_only_Exceptions)
    as (e & h' & _ & Hrun).
  - left. exists Boom. reflexivity.
  - exists e, h'. exact Hrun.
Defined.

Lemma failures_are_normalized_witness :
  outcome (devbox_launch "test-project" None None 0 None "/devbox"
                         provider_down []) =
    inl (RuntimeError_from "Failed to launch devbox: Boom" Boom)
  /\ outcome (devbox_status None provider_down []) =
       inl (RuntimeError_from "Failed to retrieve status: Boom" Boom)
  /\ outcome (devbox_terminate "my-project" provider_down []) =
       inl (RuntimeError_from "Failed to terminate instance: Boom" Boom).
Proof.
  destruct (failures_are_normalized provider_down)
    as (Hlaunch & Hstatus & Hterminate & _).
  split; [| split].
  - rewrite (Hlaunch "test-project" None None 0%Z None "/devbox" [] Boom);
      reflexivity.
  - rewrite (Hstatus None [] Boom
                     [EvDevBoxManager; EvListInstances None (Some true)]);
      reflexivity.
  - rewrite (Hterminate "my-project" [] Boom
                        [EvDevBoxManager;
                         EvListInstances (Some "my-project") None]);
      reflexivity.
Defined.

Lemma terminate_response_composition_witness :
  devbox_terminate "my-project" one_instance [] =
    (inr (PDict [("success", PBool true);
                 ("message", PStr "Terminating");
                 ("project", PStr "my-project");
                 ("instance_id", PStr "i-12345")]),
     [EvDevBoxManager; EvListInstances (Some "my-project") None;
      EvTerminateInstance "my-project"]).
Proof.
  refine (proj2 (terminate_response_composition one_instance)
                [] my_instance (PStr "i-12345") _ _ _ _ _); reflexivity.
Defined.

Lemma terminate_first_phase_failure_witness :
  devbox_terminate "my-project" listing_down [] =
    (inl (RuntimeError_from "Failed to terminate instance: Boom" Boom),
     [EvDevBoxManager; EvListInstances (Some "my-project") None;
      EvLoggerException "devbox_terminate failed"])
  /\ terminate_calls (trace (devbox_terminate "my-project" listing_down [])) = [].
Proof.
  destruct (proj1 (terminate_first_phase_failure
                     listing_down "my-project" [] eq_refl) Boom eq_refl)
    as (_ & Hcalls & Hrun).
  split; [exact (Hrun eq_refl) | exact Hcalls].
Defined.

(** ** Footprints: which events a computation may append *)

Lemma launch_calls_app (h h' : history) :
  launch_calls (h ++ h')%list = (launch_calls h ++ launch_calls h')%list.
Proof.
  induction h as [| ev h0 IH]; [reflexivity |].
  destruct ev; cbn [app launch_calls]; rewrite IH; reflexivity.
Qed.

Lemma log_records_app (h h' : history) :
  log_records (h ++ h')%list = (log_records h ++ log_records h')%list.
Proof.
  induction h as [| ev h0 IH]; [reflexivity |].
  destruct ev; cbn [app log_records]; rewrite IH; reflexivity.
Qed.

Lemma list_queries_app (h h' : history) :
  list_queries (h ++ h')%list = (list_queries h ++ list_queries h')%list.
Proof.
  induction h as [| ev h0 IH]; [reflexivity |].
  destruct ev; cbn [app list_queries]; rewrite IH; reflexivity.
Qed.

Section Footprints.

Variable allowed : event -> bool.

Lemma appends_ret {A : Type} (a : A) : appends_only allowed (ret a).
Proof.
  intros env h. exists []. cbn. rewrite app_nil_r. auto.
Qed.

Lemma appends_raise {A : Type} (e : exn) : appends_only allowed (@raise A e).
Proof.
  intros env h. exists []. cbn. rewrite app_nil_r. auto.
Qed.

Lemma appends_lift {A : Type} (r : result A) : appends_only allowed (lift r).
Proof.
  intros env h. exists []. cbn. rewrite app_nil_r. auto.
Qed.

Lemma appends_get_project_tag (tags : pyval) :
  appends_only allowed (utils_get_project_tag tags).
Proof.
  intros env h. exists []. cbn. rewrite app_nil_r. auto.
Qed.

Lemma appends_call {A : Type} (ev : event)
      (ask : Collaborators -> history -> result A) :
  allowed ev = true -> appends_only allowed (call ev ask).
Proof.
  intros Hev env h. exists [ev]. cbn. rewrite Hev. auto.
Qed.

Lemma appends_log (msg : string) :
  allowed (EvLoggerException msg) = true ->
  appends_only allowed (log_exception msg).
Proof.
  intros Hev env h. exists [EvLoggerException msg]. cbn. rewrite Hev. auto.
Qed.

Lemma appends_bind {A B : Type} (m : M A) (k : A -> M B) :
  appends_only allowed m ->
  (forall a, appends_only allowed (k a)) ->
  appends_only allowed (bind m k).
Proof.
  intros Hm Hk env h. cbn [bind Monad_M]. unfold m_bind.
  destruct (Hm env h) as (t1 & Ht1 & Hall1). unfold trace in *.
  destruct (m env h) as [[e | a] h1]; cbn [snd] in Ht1; subst h1.
  - exists t1. auto.
  - destruct (Hk a env (h ++ t1)%list) as (t2 & Ht2 & Hall2).
    unfold trace in Ht2.
    exists (t1 ++ t2)%list. rewrite Ht2, app_assoc, forallb_app, Hall1, Hall2.
    auto.
Qed.

Lemma appends_try_except {A : Type} (body : M A) (handler : exn -> M A) :
  appends_only allowed body ->
  (forall e, appends_only allowed (handler e)) ->
  appends_only allowed (try_except body handler).
Proof.
  intros Hb Hh env h. unfold try_except.
  destruct (Hb env h) as (t1 & Ht1 & Hall1). unfold trace in *.
  destruct (body env h) as [[e | a] h1]; cbn [snd] in Ht1; subst h1.
  - destruct (is_Exception e).
    + destruct (Hh e env (h ++ t1)%list) as (t2 & Ht2 & Hall2).
      unfold trace in Ht2.
      exists (t1 ++ t2)%list. rewrite Ht2, app_assoc, forallb_app, Hall1, Hall2.
      auto.
    + exists t1. auto.
  - exists t1. auto.
Qed.

End Footprints.

Ltac footprint :=
  repeat first
    [ apply appends_ret
    | apply appends_raise
    | apply appends_lift
    | apply appends_get_project_tag
    | apply appends_call; reflexivity
    | apply appends_log; reflexivity
    | apply appends_try_except; [| intro]
    | apply appends_bind; [| intro]
    | match goal with
      | |- appends_only _ (let '(_, _) := ?p in _) => destruct p
      | |- appends_only _ (if ?b then _ else _) => destruct b
      end ].

Lemma resolver_footprint (identifier : string) :
  appends_only resolver_event (_resolve_termination_target identifier).
Proof.
  unfold _resolve_termination_target, direct_id_lookup,
    manager_list_instances, ec2_describe_instances.
  footprint.
Qed.

Lemma status_footprint (project : option string) :
  appends_only status_event (devbox_status project).
Proof.
  unfold devbox_status, devbox_status_body, manager_new,
    manager_list_instances, manager_list_volumes, manager_list_snapshots.
  footprint.
Qed.

Lemma launch_footprint
      (project : string) (instance_type key_pair : option string)
      (volume_size : Z) (base_ami : option string) (param_prefix : string) :
  appends_only launch_event
    (devbox_launch project instance_type key_pair volume_size base_ami
                   param_prefix).
Proof.
  unfold devbox_launch, call_launch_devbox. footprint.
Qed.

Lemma terminate_footprint (identifier : string) :
  appends_only terminate_event (devbox_terminate identifier).
Proof.
  unfold devbox_terminate, devbox_terminate_body, manager_new,
    manager_terminate_instance.
  footprint.
Qed.

Lemma forallb_no_terminate (allowed : event -> bool) (t : history) :
  (forall identifier, allowed (EvTerminateInstance identifier) = false) ->
  forallb allowed t = true -> terminate_calls t = [].
Proof.
  intros Hno. induction t as [| ev t IH]; [reflexivity |].
  cbn [forallb]. intros H. apply andb_prop in H. destruct H as [Hev Ht].
  destruct ev; cbn [terminate_calls]; auto.
  rewrite Hno in Hev. discriminate.
Qed.

Lemma forallb_no_launch (allowed : event -> bool) (t : history) :
  (forall args, allowed (EvLaunchDevbox args) = false) ->
  forallb allowed t = true -> launch_calls t = [].
Proof.
  intros Hno. induction t as [| ev t IH]; [reflexivity |].
  cbn [forallb]. intros H. apply andb_prop in H. destruct H as [Hev Ht].
  destruct ev; cbn [launch_calls]; auto.
  rewrite Hno in Hev. discriminate.
Qed.

Lemma forallb_no_describe (allowed : event -> bool) (t : history) :
  (forall ids, allowed (EvDescribeInstances ids) = false) ->
  forallb allowed t = true -> describe_calls t = [].
Proof.
  intros Hno. induction t as [| ev t IH]; [reflexivity |].
  cbn [forallb]. intros H. apply andb_prop in H. destruct H as [Hev Ht].
  destruct ev; cbn [describe_calls]; auto.
  rewrite Hno in Hev. discriminate.
Qed.

Lemma forallb_no_log (allowed : event -> bool) (t : history) :
  (forall msg, allowed (EvLoggerException msg) = false) ->
  forallb allowed t = true -> log_records t = [].
Proof.
  intros Hno. induction t as [| ev t IH]; [reflexivity |].
  cbn [forallb]. intros H. apply andb_prop in H. destruct H as [Hev Ht].
  destruct ev; cbn [log_records]; auto.
  rewrite Hno in Hev. discriminate.
Qed.

Lemma forallb_no_list_query (allowed : event -> bool) (t : history) :
  (forall p s, allowed (EvListInstances p s) = false) ->
  (forall p, allowed (EvListVolumes p) = false) ->
  (forall p s, allowed (EvListSnapshots p s) = false) ->
  forallb allowed t = true -> list_queries t = [].
Proof.
  intros Hi Hv Hs. induction t as [| ev t IH]; [reflexivity |].
  cbn [forallb]. intros H. apply andb_prop in H. destruct H as [Hev Ht].
  destruct ev; cbn [list_queries]; auto;
    rewrite ?Hi, ?Hv, ?Hs in Hev; discriminate.
Qed.

(** The bodies of the three [try] blocks write no log record. *)
Lemma status_body_quiet (project : option string) :
  appends_only collaborator_event (devbox_status_body project).
Proof.
  unfold devbox_status_body, manager_new, manager_list_instances,
    manager_list_volumes, manager_list_snapshots.
  footprint.
Qed.

Lemma terminate_body_quiet (identifier : string) :
  appends_only collaborator_event (devbox_terminate_body identifier).
Proof.
  unfold devbox_terminate_body, manager_new, manager_terminate_instance.
  footprint.
Qed.

(** ** Further properties of the operations *)

Section Operations.

Variable env : Collaborators.

(** X1: whatever the provider does and whatever comes before,
    [devbox_status] never terminates an instance, never launches one and
    never looks an instance up by id. *)
Theorem status_is_read_only (project : option string) (h : history) :
  terminate_calls (trace (devbox_status project env h)) = terminate_calls h
  /\ launch_calls (trace (devbox_status project env h)) = launch_calls h
  /\ describe_calls (trace (devbox_status project env h)) = describe_calls h.
Proof.
  destruct (status_footprint project env h) as (t & Ht & Hall).
  rewrite Ht, terminate_calls_app, launch_calls_app, describe_calls_app.
  rewrite (forallb_no_terminate status_event t), (forallb_no_launch status_event t),
    (forallb_no_describe status_event t), !app_nil_r; auto.
Qed.

(** X2: [devbox_launch] makes exactly one call to [launch_devbox], with the
    caller's arguments unchanged and console output switched off, whether
    that call succeeds or not; it lists nothing and terminates nothing; and
    when the call returns, its value is returned as it is. *)
Theorem launch_delegates_once
        (project : string) (instance_type key_pair : option string)
        (volume_size : Z) (base_ami : option string) (param_prefix : string)
        (h : history) :
  let args := mkLaunchArgs project instance_type key_pair volume_size base_ami
                           param_prefix false in
  let run := devbox_launch project instance_type key_pair volume_size base_ami
                           param_prefix env h in
  launch_calls (trace run) = (launch_calls h ++ [args])%list
  /\ terminate_calls (trace run) = terminate_calls h
  /\ list_queries (trace run) = list_queries h
  /\ (forall v, launch_devbox env h args = inr v ->
                run = (inr v, (h ++ [EvLaunchDevbox args])%list)).
Proof.
  intros args run.
  destruct (launch_footprint project instance_type key_pair volume_size
                             base_ami param_prefix env h) as (t & Ht & Hall).
  fold run in Ht. split; [| split; [| split]].
  - subst run. unfold_server. unfold trace. fold args.
    destruct (launch_devbox env h args) as [e | v];
      [destruct (is_Exception e) |]; cbn [snd m_bind];
      rewrite !launch_calls_app; cbn; rewrite ?app_nil_r; reflexivity.
  - rewrite Ht, terminate_calls_app, (forallb_no_terminate launch_event t),
      app_nil_r; auto.
  - rewrite Ht, list_queries_app, (forallb_no_list_query launch_event t),
      app_nil_r; auto.
  - intros v Hv. subst run. unfold_server. fold args. rewrite Hv. reflexivity.
Qed.

(** X3: [devbox_terminate] calls [terminate_instance] at most once and never
    with anything but the identifier it was given: once when the manager is
    built and the resolver returns, not at all otherwise.  It never launches
    anything. *)
Theorem terminate_at_most_once (identifier : string) (h : history) :
  terminate_calls (trace (devbox_terminate identifier env h)) =
    (terminate_calls h ++
     match DevBoxManager env h with
     | inl _ => []
     | inr _ =>
         match outcome (_resolve_termination_target identifier env
                          (h ++ [EvDevBoxManager])%list) with
         | inl _ => []
         | inr _ => [identifier]
         end
     end)%list
  /\ launch_calls (trace (devbox_terminate identifier env h)) = launch_calls h.
Proof.
  split.
  - rewrite terminate_of_body.
    destruct (DevBoxManager env h) as [e0 | []] eqn:Hm.
    + unfold devbox_terminate_body, manager_new, call.
      cbn [bind ret Monad_M]. unfold m_bind, trace. rewrite Hm.
      destruct (is_Exception e0); cbn [snd];
        rewrite !terminate_calls_app; cbn; rewrite ?app_nil_r; reflexivity.
    + assert (Hnone :
        terminate_calls (trace (_resolve_termination_target identifier env
                                  (h ++ [EvDevBoxManager])%list)) =
          terminate_calls h).
      { rewrite resolve_terminates_nothing, terminate_calls_app.
        cbn [terminate_calls]. apply app_nil_r. }
      unfold trace, outcome in *.
      destruct (_resolve_termination_target identifier env
                  (h ++ [EvDevBoxManager])%list)
        as [[e1 | [instance_id project]] h2] eqn:Hr; cbn [fst snd] in *.
      * rewrite (terminate_body_resolver_raises _ _ _ _ _ Hm Hr).
        destruct (is_Exception e1); cbn [snd];
          rewrite ?terminate_calls_app, Hnone; cbn; rewrite ?app_nil_r;
          reflexivity.
      * rewrite (terminate_body_after_resolution _ _ _ _ _ _ Hm Hr).
        destruct (terminate_instance env h2 identifier) as [e2 | [s m]];
          [destruct (is_Exception e2) |]; cbn [snd];
          rewrite !terminate_calls_app, Hnone; cbn; rewrite ?app_nil_r;
          reflexivity.
  - destruct (terminate_footprint identifier env h) as (t & Ht & Hall).
    rewrite Ht, launch_calls_app, (forallb_no_launch terminate_event t),
      app_nil_r; auto.
Qed.

(** X4: a terminate call that fails is not retried: once the manager is
    built and the resolver has returned, a failing [terminate_instance]
    makes the operation raise its normalized failure after that single
    call, and the resolved pair is not reported. *)
Theorem terminate_failure_not_retried
        (identifier : string) (h h2 : history) (resolved : pyval * pyval)
        (e : exn) :
  DevBoxManager env h = inr tt ->
  _resolve_termination_target identifier env (h ++ [EvDevBoxManager])%list =
    (inr resolved, h2) ->
  terminate_instance env h2 identifier = inl e ->
  is_Exception e = true ->
  devbox_terminate identifier env h =
    (inl (RuntimeError_from ("Failed to terminate instance: " ++ exn_str e) e),
     (h2 ++ [EvTerminateInstance identifier;
             EvLoggerException "devbox_terminate failed"])%list).
Proof.
  intros Hm Hr Ht He. destruct resolved as [instance_id project].
  rewrite terminate_of_body, (terminate_body_after_resolution _ _ _ _ _ _ Hm Hr).
  rewrite Ht, He, <- app_assoc. reflexivity.
Qed.

(** X5: a manager that cannot be built ends [devbox_terminate] and
    [devbox_status] at once: nothing is listed, looked up or terminated,
    and the operation raises its normalized failure. *)
Theorem manager_failure_stops_everything (h : history) (e : exn) :
  DevBoxManager env h = inl e ->
  is_Exception e = true ->
  (forall identifier,
      devbox_terminate identifier env h =
        (inl (RuntimeError_from
                ("Failed to terminate instance: " ++ exn_str e) e),
         (h ++ [EvDevBoxManager;
                EvLoggerException "devbox_terminate failed"])%list))
  /\ (forall project,
         devbox_status project env h =
           (inl (RuntimeError_from ("Failed to retrieve status: " ++ exn_str e) e),
            (h ++ [EvDevBoxManager;
                   EvLoggerException "devbox_status failed"])%list)).
Proof.
  intros Hm He. split.
  - intros identifier. rewrite terminate_of_body.
    unfold devbox_terminate_body, manager_new, call.
    cbn [bind ret Monad_M]. unfold m_bind. rewrite Hm, He, <- app_assoc.
    reflexivity.
  - intros project. rewrite status_of_body.
    unfold devbox_status_body, manager_new, call.
    cbn [bind ret Monad_M]. unfold m_bind. rewrite Hm, He, <- app_assoc.
    reflexivity.
Qed.

(** X6: [devbox_status] stops at the first query that fails: the queries
    made are those up to and including the failing one, the later ones are
    never sent. *)
Theorem status_stops_at_first_failure
        (project : option string) (h : history) (e : exn) :
  DevBoxManager env h = inr tt ->
  is_Exception e = true ->
  let h1 := (h ++ [EvDevBoxManager])%list in
  let q1 := EvListInstances project (Some true) in
  let q2 := EvListVolumes project in
  let q3 := EvListSnapshots project (Some true) in
  (list_instances env h1 project (Some true) = inl e ->
   list_queries (trace (devbox_status project env h)) =
     (list_queries h ++ [q1])%list)
  /\ (forall instances,
         list_instances env h1 project (Some true) = inr instances ->
         list_volumes env (h1 ++ [q1])%list project = inl e ->
         list_queries (trace (devbox_status project env h)) =
           (list_queries h ++ [q1; q2])%list)
  /\ (forall instances volumes,
         list_instances env h1 project (Some true) = inr instances ->
         list_volumes env (h1 ++ [q1])%list project = inr volumes ->
         list_snapshots env (h1 ++ [q1; q2])%list project (Some true) = inl e ->
         list_queries (trace (devbox_status project env h)) =
           (list_queries h ++ [q1; q2; q3])%list
         /\ outcome (devbox_status project env h) =
              inl (RuntimeError_from
                     ("Failed to retrieve status: " ++ exn_str e) e)).
Proof.
  intros Hm He h1 q1 q2 q3. split; [| split].
  - intros Hi. rewrite status_of_body. unfold_server. unfold m_bind, trace.
    fold h1. rewrite Hm, Hi, He. cbn [snd]. subst h1.
    rewrite !list_queries_app. cbn. rewrite !app_nil_r. reflexivity.
  - intros instances Hi Hv. rewrite status_of_body. unfold_server.
    unfold m_bind, trace. fold h1. rewrite Hm, Hi. fold q1. rewrite Hv, He.
    cbn [snd]. subst h1. rewrite !list_queries_app. cbn.
    rewrite !app_nil_r, <- app_assoc. reflexivity.
  - intros instances volumes Hi Hv Hs. rewrite status_of_body. unfold_server.
    unfold m_bind, trace, outcome. fold h1. rewrite Hm, Hi. fold q1.
    rewrite Hv. fold q2. rewrite <- (app_assoc h1 [q1] [q2]). cbn [app].
    rewrite Hs, He. cbn [fst snd]. split; [| reflexivity].
    subst h1. rewrite !list_queries_app. cbn.
    rewrite !app_nil_r, <- app_assoc. reflexivity.
Qed.

(** X7: with collaborators that raise instances of [Exception] only, each
    operation writes exactly one log record when it fails, carrying the
    name of the operation, and none when it succeeds. *)
Theorem operations_log_once_on_failure :
  raises_only_Exceptions env ->
  (forall project instance_type key_pair volume_size base_ami param_prefix h,
      let run := devbox_launch project instance_type key_pair volume_size
                               base_ami param_prefix env h in
      log_records (trace run) =
        (log_records h ++
         match outcome run with
         | inl _ => ["devbox_launch failed"]
         | inr _ => []
         end)%list)
  /\ (forall project h,
         let run := devbox_status project env h in
         log_records (trace run) =
           (log_records h ++
            match outcome run with
            | inl _ => ["devbox_status failed"]
            | inr _ => []
            end)%list)
  /\ (forall identifier h,
         let run := devbox_terminate identifier env h in
         log_records (trace run) =
           (log_records h ++
            match outcome run with
            | inl _ => ["devbox_terminate failed"]
            | inr _ => []
            end)%list).
Proof.
  intros Hroe. split; [| split].
  - intros project instance_type key_pair volume_size base_ami param_prefix h
           run.
    subst run. unfold_server. unfold trace, outcome.
    destruct (launch_devbox env h _) as [e | v] eqn:Hl.
    + rewrite (roe_launch _ Hroe _ _ _ Hl). cbn [fst snd m_bind].
      rewrite !log_records_app. cbn. rewrite app_nil_r. reflexivity.
    + cbn [fst snd]. rewrite !log_records_app. cbn. reflexivity.
  - intros project h run. subst run.
    destruct (status_body_quiet project env h) as (t & Ht & Hall).
    rewrite status_of_body. unfold trace, outcome in *.
    destruct (devbox_status_body project env h) as [[e | v] h'] eqn:Hb;
      cbn [snd] in Ht; subst h'.
    + rewrite (status_body_raises_Exception _ Hroe _ _ _ _ Hb). cbn [fst snd].
      rewrite !log_records_app, (forallb_no_log collaborator_event t) by auto.
      cbn. rewrite ?app_nil_r. reflexivity.
    + cbn [fst snd].
      rewrite !log_records_app, (forallb_no_log collaborator_event t) by auto.
      cbn. rewrite ?app_nil_r. reflexivity.
  - intros identifier h run. subst run.
    destruct (terminate_body_quiet identifier env h) as (t & Ht & Hall).
    rewrite terminate_of_body. unfold trace, outcome in *.
    destruct (devbox_terminate_body identifier env h) as [[e | v] h'] eqn:Hb;
      cbn [snd] in Ht; subst h'.
    + rewrite (terminate_body_raises_Exception _ Hroe _ _ _ _ Hb).
      cbn [fst snd].
      rewrite !log_records_app, (forallb_no_log collaborator_event t) by auto.
      cbn. rewrite ?app_nil_r. reflexivity.
    + cbn [fst snd].
      rewrite !log_records_app, (forallb_no_log collaborator_event t) by auto.
      cbn. rewrite ?app_nil_r. reflexivity.
Qed.

(** X8: a raised object that is not an instance of [Exception] (an
    interrupt, an exit request) is not caught by any operation: it leaves
    the operation as it is, unwrapped, and no log record is written. *)
Theorem interrupts_pass_through (e : exn) :
  is_Exception e = false ->
  (forall project instance_type key_pair volume_size base_ami param_prefix h,
      let args := mkLaunchArgs project instance_type key_pair volume_size
                               base_ami param_prefix false in
      launch_devbox env h args = inl e ->
      devbox_launch project instance_type key_pair volume_size base_ami
                    param_prefix env h =
        (inl e, (h ++ [EvLaunchDevbox args])%list))
  /\ (forall project h h',
         devbox_status_body project env h = (inl e, h') ->
         devbox_status project env h = (inl e, h')
         /\ log_records h' = log_records h)
  /\ (forall identifier h h',
         devbox_terminate_body identifier env h = (inl e, h') ->
         devbox_terminate identifier env h = (inl e, h')
         /\ log_records h' = log_records h).
Proof.
  intros He. split; [| split].
  - intros project instance_type key_pair volume_size base_ami param_prefix h
           args Hl.
    unfold_server. fold args. rewrite Hl, He. reflexivity.
  - intros project h h' Hb. rewrite status_of_body, Hb, He.
    split; [reflexivity |].
    destruct (status_body_quiet project env h) as (t & Ht & Hall).
    unfold trace in Ht. rewrite Hb in Ht. cbn [snd] in Ht. subst h'.
    rewrite log_records_app, (forallb_no_log collaborator_event t) by auto.
    apply app_nil_r.
  - intros identifier h h' Hb. rewrite terminate_of_body, Hb, He.
    split; [reflexivity |].
    destruct (terminate_body_quiet identifier env h) as (t & Ht & Hall).
    unfold trace in Ht. rewrite Hb in Ht. cbn [snd] in Ht. subst h'.
    rewrite log_records_app, (forallb_no_log collaborator_event t) by auto.
    apply app_nil_r.
Qed.

(** X9: the resolver looks an identifier up by id exactly when the query by
    project tag returned no record; in every other case (a failed query, one
    record, several records) no lookup by id is made. *)
Theorem resolver_describes_iff_no_match (identifier : string) (h : history) :
  describe_calls (trace (_resolve_termination_target identifier env h)) =
    (describe_calls h ++
     match list_instances env h (Some identifier) None with
     | inr [] => [[identifier]]
     | _ => []
     end)%list.
Proof.
  destruct (list_instances env h (Some identifier) None) as [e | records]
    eqn:Hlist.
  - rewrite (resolve_first_phase_raises _ _ _ _ Hlist). unfold trace.
    cbn [snd]. rewrite describe_calls_app. reflexivity.
  - destruct records as [| r0 [| r1 rest]].
    + rewrite (resolve_zero_matches _ _ _ Hlist).
      pose proof (direct_id_lookup_trace env identifier
                    (h ++ [EvListInstances (Some identifier) None])%list) as Ht.
      unfold trace, try_except in *.
      destruct (direct_id_lookup identifier env _) as [[e | v] h2];
        cbn [snd] in Ht; subst h2;
        [destruct (is_Exception e) |]; cbn [snd ret Monad_M m_ret];
        rewrite !describe_calls_app; cbn; rewrite app_nil_r; reflexivity.
    + unfold_server. rewrite Hlist. unfold trace. cbn.
      destruct (py_get r0 "InstanceId" PNone); cbn;
        [| destruct (py_get r0 "Project" PNone); cbn];
        rewrite describe_calls_app; reflexivity.
    + unfold_server. rewrite Hlist. unfold trace. cbn.
      rewrite describe_calls_app. reflexivity.
Qed.

(** X10: with collaborators that raise instances of [Exception] only, the
    resolver does not raise once the query by project tag has answered with
    records: whatever the lookup by id does, the caller gets a pair. *)
Theorem resolver_returns_on_records
        (identifier : string) (h : history) (records : list pyval) :
  raises_only_Exceptions env ->
  list_instances env h (Some identifier) None = inr records ->
  forallb is_dict records = true ->
  exists resolved,
    outcome (_resolve_termination_target identifier env h) = inr resolved.
Proof.
  intros Hroe Hlist Hdict.
  destruct (_resolve_termination_target identifier env h)
    as [[e | resolved] h'] eqn:Hr; [| exists resolved; reflexivity].
  exfalso. destruct records as [| r0 [| r1 rest]].
  - rewrite (resolve_zero_matches _ _ _ Hlist) in Hr. unfold try_except in Hr.
    destruct (direct_id_lookup identifier env _) as [[e1 | v] h2] eqn:Hb;
      [| discriminate].
    rewrite (direct_id_lookup_raises_Exception _ Hroe _ _ _ _ Hb) in Hr.
    discriminate.
  - cbn in Hdict. destruct r0; try discriminate.
    rewrite (resolve_single_record _ _ _ _ Hlist) in Hr. discriminate.
  - revert Hr. unfold_server. rewrite Hlist. cbn. discriminate.
Qed.

(** X11: a single listed item that is not a record makes the resolver raise
    the attribute error of its [.get]; [devbox_terminate] reports it as its
    normalized failure and terminates nothing. *)
Theorem resolver_malformed_record
        (identifier : string) (h : history) (item : pyval) :
  DevBoxManager env h = inr tt ->
  let h1 := (h ++ [EvDevBoxManager])%list in
  let h2 := (h1 ++ [EvListInstances (Some identifier) None])%list in
  list_instances env h1 (Some identifier) None = inr [item] ->
  is_dict item = false ->
  _resolve_termination_target identifier env h1 =
    (inl (AttributeError item "get"), h2)
  /\ devbox_terminate identifier env h =
       (inl (RuntimeError_from
               ("Failed to terminate instance: '" ++ type_name item ++
                "' object has no attribute 'get'")
               (AttributeError item "get")),
        (h2 ++ [EvLoggerException "devbox_terminate failed"])%list).
Proof.
  intros Hm h1 h2 Hlist Hitem.
  assert (Hr : _resolve_termination_target identifier env h1 =
                 (inl (AttributeError item "get"), h2)).
  { unfold_server. rewrite Hlist. destruct item; try discriminate; reflexivity. }
  split; [exact Hr |].
  rewrite terminate_of_body, (terminate_body_resolver_raises _ _ _ _ _ Hm Hr).
  reflexivity.
Qed.

(** X12: an interrupt during the lookup by id is not swallowed by the
    resolver: it leaves the resolver and [devbox_terminate] as it is, and
    nothing is terminated. *)
Theorem resolver_lets_interrupts_through
        (identifier : string) (h : history) (e : exn) :
  DevBoxManager env h = inr tt ->
  let h1 := (h ++ [EvDevBoxManager])%list in
  let h2 := (h1 ++ [EvListInstances (Some identifier) None])%list in
  list_instances env h1 (Some identifier) None = inr [] ->
  describe_instances env h2 [identifier] = inl e ->
  is_Exception e = false ->
  _resolve_termination_target identifier env h1 =
    (inl e, (h2 ++ [EvDescribeInstances [identifier]])%list)
  /\ devbox_terminate identifier env h =
       (inl e, (h2 ++ [EvDescribeInstances [identifier]])%list).
Proof.
  intros Hm h1 h2 Hlist Hdesc He.
  assert (Hr : _resolve_termination_target identifier env h1 =
                 (inl e, (h2 ++ [EvDescribeInstances [identifier]])%list)).
  { rewrite (resolve_zero_matches _ _ _ Hlist). fold h2. unfold_server.
    rewrite Hdesc. cbn. rewrite He. reflexivity. }
  split; [exact Hr |].
  rewrite terminate_of_body, (terminate_body_resolver_raises _ _ _ _ _ Hm Hr), He.
  reflexivity.
Qed.


Section DirectLookup.

Variable identifier : string.
Variable h : history.
Variable response : pyval.

Let h1 : history := (h ++ [EvListInstances (Some identifier) None])%list.
Let h2 : history := (h1 ++ [EvDescribeInstances [identifier]])%list.

Hypothesis Hlist : list_instances env h (Some identifier) None = inr [].
Hypothesis Hdesc : describe_instances env h1 [identifier] = inr response.

(** X14: on the lookup by id, a project tag with a true value (a non-empty
    string) is returned as it is, beside the instance id of the record. *)
Theorem resolve_direct_keeps_project
        (instance : list (string * pyval)) (tag : pyval) :
  first_instance response = inr (PDict instance) ->
  get_project_tag env (dict_get instance "Tags" (PList [])) = inr tag ->
  truthy tag = true ->
  _resolve_termination_target identifier env h =
    (inr (dict_get instance "InstanceId" PNone, tag), h2).
Proof.
  intros Hfirst Htag Htrue.
  rewrite (resolve_zero_matches _ _ _ Hlist). fold h1.
  unfold_server. rewrite Hdesc, Hfirst. cbn. rewrite Htag.
  unfold py_or. rewrite Htrue. reflexivity.
Qed.

(** X15: unless the response holds a record as first instance of its first
    reservation (no reservation, no instance, a missing key, a value of the
    wrong kind), the resolver returns two nulls. *)
Theorem resolve_unreadable_response :
  (forall instance, first_instance response <> inr (PDict instance)) ->
  _resolve_termination_target identifier env h = (inr (PNone, PNone), h2).
Proof.
  intros Hnone. rewrite (resolve_zero_matches _ _ _ Hlist). fold h1.
  unfold_server. rewrite Hdesc.
  destruct (first_instance response) as [e | instance] eqn:Hfirst.
  - cbn. rewrite (first_instance_raises_Exception _ _ Hfirst). reflexivity.
  - destruct instance; try reflexivity.
    exfalso. eapply Hnone. reflexivity.
Qed.

(** X16: when the tag helper raises on the instance found, the instance id
    is lost with it: the resolver returns two nulls. *)
Theorem resolve_tag_failure_discards_id
        (instance : list (string * pyval)) (e : exn) :
  first_instance response = inr (PDict instance) ->
  get_project_tag env (dict_get instance "Tags" (PList [])) = inl e ->
  is_Exception e = true ->
  _resolve_termination_target identifier env h = (inr (PNone, PNone), h2).
Proof.
  intros Hfirst Htag He.
  rewrite (resolve_zero_matches _ _ _ Hlist). fold h1.
  unfold_server. rewrite Hdesc, Hfirst. cbn. rewrite Htag, He. reflexivity.
Qed.

End DirectLookup.

(** X17: on the lookup by id the returned project is never a false value
    other than null: in particular it is never the empty string. *)
Theorem resolve_direct_project_never_empty
        (identifier : string) (h h' : history) (instance_id project : pyval) :
  list_instances env h (Some identifier) None = inr [] ->
  _resolve_termination_target identifier env h =
    (inr (instance_id, project), h') ->
  (project = PNone \/ truthy project = true) /\ project <> PStr "".
Proof.
  intros Hlist. rewrite (resolve_zero_matches _ _ _ Hlist).
  unfold_server.
  destruct (describe_instances env _ [identifier]) as [e0 | response].
  { cbn. destruct (is_Exception e0); intros H; inversion H; subst.
    split; [left; reflexivity | discriminate]. }
  destruct (first_instance response) as [e1 | instance].
  { cbn. destruct (is_Exception e1); intros H; inversion H; subst.
    split; [left; reflexivity | discriminate]. }
  destruct (py_get instance "Tags" (PList [])) as [e2 | tags].
  { cbn. destruct (is_Exception e2); intros H; inversion H; subst.
    split; [left; reflexivity | discriminate]. }
  cbn. destruct (get_project_tag env tags) as [e3 | tag].
  { cbn. destruct (is_Exception e3); intros H; inversion H; subst.
    split; [left; reflexivity | discriminate]. }
  destruct (py_get instance "InstanceId" PNone) as [e4 | iid].
  { cbn. destruct (is_Exception e4); intros H; inversion H; subst.
    split; [left; reflexivity | discriminate]. }
  cbn. intros H. inversion H; subst. unfold py_or.
  destruct (truthy tag) eqn:Htag.
  - split; [right; exact Htag |]. intros ->. discriminate.
  - split; [left; reflexivity | discriminate].
Qed.

(** X18: an ambiguous identifier does not stop the termination: with two or
    more instances under the project tag, [terminate_instance] is still
    called with the identifier, right after the listing, and its answer is
    returned beside a null instance id and a null project. *)
Theorem terminate_proceeds_on_ambiguity
        (identifier : string) (h : history) (records : list pyval)
        (success message : pyval) :
  DevBoxManager env h = inr tt ->
  let h2 := (h ++ [EvDevBoxManager;
                   EvListInstances (Some identifier) None])%list in
  list_instances env (h ++ [EvDevBoxManager])%list (Some identifier) None =
    inr records ->
  2 <= length records ->
  terminate_instance env h2 identifier = inr (success, message) ->
  devbox_terminate identifier env h =
    (inr (PDict [("success", success); ("message", message);
                 ("project", PNone); ("instance_id", PNone)]),
     (h2 ++ [EvTerminateInstance identifier])%list).
Proof.
  intros Hm h2 Hlist Hlen Hterm.
  assert (Hr : _resolve_termination_target identifier env
                 (h ++ [EvDevBoxManager])%list =
               (inr (PNone, PNone),
                ((h ++ [EvDevBoxManager]) ++
                 [EvListInstances (Some identifier) None])%list)).
  { unfold_server. rewrite Hlist.
    destruct records as [| r0 [| r1 rest]]; cbn in Hlen; try lia.
    reflexivity. }
  rewrite <- app_assoc in Hr. cbn [app] in Hr. fold h2 in Hr.
  rewrite terminate_of_body, (terminate_body_after_resolution _ _ _ _ _ _ Hm Hr).
  rewrite Hterm. reflexivity.
Qed.

(** X19: an identifier that is neither a project tag in use nor an instance
    id the provider can describe is still handed to [terminate_instance];
    the response carries that call's answer with both resolved fields
    null. *)
Theorem terminate_unresolved_identifier
        (identifier : string) (h : history) (e : exn)
        (success message : pyval) :
  DevBoxManager env h = inr tt ->
  let h2 := (h ++ [EvDevBoxManager;
                   EvListInstances (Some identifier) None])%list in
  let h3 := (h2 ++ [EvDescribeInstances [identifier]])%list in
  list_instances env (h ++ [EvDevBoxManager])%list (Some identifier) None =
    inr [] ->
  describe_instances env h2 [identifier] = inl e ->
  is_Exception e = true ->
  terminate_instance env h3 identifier = inr (success, message) ->
  devbox_terminate identifier env h =
    (inr (PDict [("success", success); ("message", message);
                 ("project", PNone); ("instance_id", PNone)]),
     (h3 ++ [EvTerminateInstance identifier])%list).
Proof.
  intros Hm h2 h3 Hlist Hdesc He Hterm.
  assert (Hr : _resolve_termination_target identifier env
                 (h ++ [EvDevBoxManager])%list = (inr (PNone, PNone), h3)).
  { apply (resolve_swallows env identifier _ e); trivial.
    unfold_server. rewrite <- app_assoc. cbn [app]. fold h2.
    rewrite Hdesc. reflexivity. }
  rewrite terminate_of_body, (terminate_body_after_resolution _ _ _ _ _ _ Hm Hr).
  rewrite Hterm. reflexivity.
Qed.

(** X20: the resolver only reads: it sends exactly one listing query, for
    the identifier as project tag and without a [serialize] argument, and it
    terminates nothing, launches nothing and writes no log record, whether
    it returns or raises. *)
Theorem resolver_only_reads (identifier : string) (h : history) :
  let run := _resolve_termination_target identifier env h in
  list_queries (trace run) =
    (list_queries h ++ [EvListInstances (Some identifier) None])%list
  /\ terminate_calls (trace run) = terminate_calls h
  /\ launch_calls (trace run) = launch_calls h
  /\ log_records (trace run) = log_records h.
Proof.
  intros run. subst run.
  destruct (resolver_footprint identifier env h) as (t & Ht & Hall).
  split; [| split; [| split]].
  - clear t Ht Hall.
    destruct (list_instances env h (Some identifier) None) as [e | records]
      eqn:Hlist.
    + rewrite (resolve_first_phase_raises _ _ _ _ Hlist). unfold trace.
      cbn [snd]. rewrite list_queries_app. reflexivity.
    + destruct records as [| r0 [| r1 rest]].
      * rewrite (resolve_zero_matches _ _ _ Hlist).
        pose proof (direct_id_lookup_trace env identifier
                      (h ++ [EvListInstances (Some identifier) None])%list)
          as Ht.
        unfold trace, try_except in *.
        destruct (direct_id_lookup identifier env _) as [[e | v] h2];
          cbn [snd] in Ht; subst h2;
          [destruct (is_Exception e) |]; cbn [snd ret Monad_M m_ret];
          rewrite !list_queries_app; cbn; rewrite app_nil_r; reflexivity.
      * unfold_server. rewrite Hlist. unfold trace. cbn.
        destruct (py_get r0 "InstanceId" PNone); cbn;
          [| destruct (py_get r0 "Project" PNone); cbn];
          rewrite list_queries_app; reflexivity.
      * unfold_server. rewrite Hlist. unfold trace. cbn.
        rewrite list_queries_app. reflexivity.
  - rewrite Ht, terminate_calls_app, (forallb_no_terminate resolver_event t),
      app_nil_r; auto.
  - rewrite Ht, launch_calls_app, (forallb_no_launch resolver_event t),
      app_nil_r; auto.
  - rewrite Ht, log_records_app, (forallb_no_log resolver_event t),
      app_nil_r; auto.
Qed.

End Operations.

(** ** The further properties on concrete collaborators *)

Lemma one_instance_raises_only_Exceptions :
  raises_only_Exceptions one_instance.
Proof.
  constructor; cbn; intros;
    try (match goal with H : inl _ = inl _ |- _ => inversion H end; reflexivity);
    try discriminate.
  eapply project_of_raises_Exception; eassumption.
Defined.

Lemma launch_delegates_once_witness :
  devbox_launch "test-project" (Some "t3.medium") (Some "test-key") 0 None
                "/devbox" one_instance [] =
    (inr launched,
     [EvLaunchDevbox
        (mkLaunchArgs "test-project" (Some "t3.medium") (Some "test-key") 0
                      None "/devbox" false)]).
Proof.
  refine (proj2 (proj2 (proj2
            (launch_delegates_once one_instance "test-project"
               (Some "t3.medium") (Some "test-key") 0%Z None "/devbox" [])))
            launched _).
  reflexivity.
Defined.

Lemma terminate_failure_not_retried_witness :
  devbox_terminate "my-project" terminate_down [] =
    (inl (RuntimeError_from "Failed to terminate instance: Boom" Boom),
     [EvDevBoxManager; EvListInstances (Some "my-project") None;
      EvTerminateInstance "my-project";
      EvLoggerException "devbox_terminate failed"]).
Proof.
  refine (terminate_failure_not_retried terminate_down "my-project" []
            [EvDevBoxManager; EvListInstances (Some "my-project") None]
            (PStr "i-12345", PStr "my-project") Boom _ _ _ _); reflexivity.
Defined.

Lemma manager_failure_stops_everything_witness :
  devbox_terminate "my-project" manager_down [] =
    (inl (RuntimeError_from "Failed to terminate instance: Boom" Boom),
     [EvDevBoxManager; EvLoggerException "devbox_terminate failed"])
  /\ devbox_status None manager_down [] =
       (inl (RuntimeError_from "Failed to retrieve status: Boom" Boom),
        [EvDevBoxManager; EvLoggerException "devbox_status failed"]).
Proof.
  destruct (manager_failure_stops_everything manager_down [] Boom
              eq_refl eq_refl) as [Hterminate Hstatus].
  split; [exact (Hterminate "my-project") | exact (Hstatus None)].
Defined.

Lemma status_stops_at_first_failure_witness :
  list_queries (trace (devbox_status (Some "my-project") volumes_down [])) =
    [EvListInstances (Some "my-project") (Some true);
     EvListVolumes (Some "my-project")].
Proof.
  refine (proj1 (proj2 (status_stops_at_first_failure volumes_down
                          (Some "my-project") [] Boom _ _))
                [PDict my_instance] _ _); reflexivity.
Defined.

Lemma operations_log_once_on_failure_witness :
  log_records (trace (devbox_status None provider_down [])) =
    ["devbox_status failed"]
  /\ log_records (trace (devbox_status None one_instance [])) = [].
Proof.
  split.
  - exact (proj1 (proj2 (operations_log_once_on_failure provider_down
                           provider_down_raises_only_Exceptions)) None []).
  - exact (proj1 (proj2 (operations_log_once_on_failure one_instance
                           one_instance_raises_only_Exceptions)) None []).
Defined.

Lemma interrupts_pass_through_witness :
  devbox_launch "test-project" None None 0 None "/devbox" interrupted [] =
    (inl KeyboardInterrupt,
     [EvLaunchDevbox
        (mkLaunchArgs "test-project" None None 0 None "/devbox" false)])
  /\ devbox_status None interrupted [] =
       (inl KeyboardInterrupt,
        [EvDevBoxManager; EvListInstances None (Some true)])
  /\ devbox_terminate "my-project" interrupted [] =
       (inl KeyboardInterrupt,
        [EvDevBoxManager; EvListInstances (Some "my-project") None]).
Proof.
  destruct (interrupts_pass_through interrupted KeyboardInterrupt eq_refl)
    as (Hlaunch & Hstatus & Hterminate).
  split; [| split].
  - exact (Hlaunch "test-project" None None 0%Z None "/devbox" [] eq_refl).
  - exact (proj1 (Hstatus None [] _ eq_refl)).
  - exact (proj1 (Hterminate "my-project" [] _ eq_refl)).
Defined.

Lemma resolver_returns_on_records_witness :
  exists resolved,
    outcome (_resolve_termination_target "my-project" one_instance []) =
      inr resolved.
Proof.
  refine (resolver_returns_on_records one_instance "my-project" []
            [PDict my_instance] one_instance_raises_only_Exceptions _ _);
    reflexivity.
Defined.

Lemma resolver_malformed_record_witness :
  devbox_terminate "my-project" malformed_listing [] =
    (inl (RuntimeError_from
            "Failed to terminate instance: 'NoneType' object has no attribute 'get'"
            (AttributeError PNone "get")),
     [EvDevBoxManager; EvListInstances (Some "my-project") None;
      EvLoggerException "devbox_terminate failed"]).
Proof.
  refine (proj2 (resolver_malformed_record malformed_listing "my-project" []
                   PNone _ _ _)); reflexivity.
Defined.

Lemma resolver_lets_interrupts_through_witness :
  devbox_terminate "i-0abc" (lookup_answers (inl KeyboardInterrupt)) [] =
    (inl KeyboardInterrupt,
     [EvDevBoxManager; EvListInstances (Some "i-0abc") None;
      EvDescribeInstances ["i-0abc"]]).
Proof.
  refine (proj2 (resolver_lets_interrupts_through
                   (lookup_answers (inl KeyboardInterrupt)) "i-0abc" []
                   KeyboardInterrupt _ _ _ _)); reflexivity.
Defined.


Lemma resolve_direct_keeps_project_witness :
  _resolve_termination_target "i-0def"
    (lookup_answers (inr (describe_response (PDict tagged)))) [] =
    (inr (PStr "i-0def", PStr "demo"),
     [EvListInstances (Some "i-0def") None; EvDescribeInstances ["i-0def"]]).
Proof.
  refine (resolve_direct_keeps_project
            (lookup_answers (inr (describe_response (PDict tagged))))
            "i-0def" [] (describe_response (PDict tagged)) _ _
            tagged (PStr "demo") _ _ _); reflexivity.
Defined.

Lemma resolve_unreadable_response_witness :
  _resolve_termination_target "i-0abc"
    (lookup_answers (inr no_reservations)) [] =
    (inr (PNone, PNone),
     [EvListInstances (Some "i-0abc") None; EvDescribeInstances ["i-0abc"]]).
Proof.
  refine (resolve_unreadable_response
            (lookup_answers (inr no_reservations))
            "i-0abc" [] no_reservations _ _ _); try reflexivity.
  intros instance. discriminate.
Defined.

Lemma resolve_tag_failure_discards_id_witness :
  _resolve_termination_target "i-0abc"
    (lookup_answers (inr (describe_response (PDict null_tags)))) [] =
    (inr (PNone, PNone),
     [EvListInstances (Some "i-0abc") None; EvDescribeInstances ["i-0abc"]]).
Proof.
  refine (resolve_tag_failure_discards_id
            (lookup_answers (inr (describe_response (PDict null_tags))))
            "i-0abc" [] (describe_response (PDict null_tags)) _ _
            null_tags (TypeError "'NoneType' object is not iterable") _ _ _);
    reflexivity.
Defined.

Lemma resolve_direct_project_never_empty_witness :
  (PNone = PNone \/ truthy PNone = true) /\ PNone <> PStr "".
Proof.
  refine (resolve_direct_project_never_empty untagged_instance "i-0abc" []
            [EvListInstances (Some "i-0abc") None;
             EvDescribeInstances ["i-0abc"]]
            (PStr "i-0abc") PNone _ _); reflexivity.
Defined.

Lemma terminate_proceeds_on_ambiguity_witness :
  devbox_terminate "my-project" two_instances [] =
    (inr (PDict [("success", PBool false);
                 ("message", PStr "Multiple instances");
                 ("project", PNone); ("instance_id", PNone)]),
     [EvDevBoxManager; EvListInstances (Some "my-project") None;
      EvTerminateInstance "my-project"]).
Proof.
  refine (terminate_proceeds_on_ambiguity two_instances "my-project" []
            [PDict my_instance; PDict other_instance]
            (PBool false) (PStr "Multiple instances") _ _ _ _);
    reflexivity.
Defined.

Lemma terminate_unresolved_identifier_witness :
  devbox_terminate "ghost" empty_account [] =
    (inr (PDict [("success", PBool false);
                 ("message", PStr "Instance not found");
                 ("project", PNone); ("instance_id", PNone)]),
     [EvDevBoxManager; EvListInstances (Some "ghost") None;
      EvDescribeInstances ["ghost"]; EvTerminateInstance "ghost"]).
Proof.
  refine (terminate_unresolved_identifier empty_account "ghost" [] NotFound
            (PBool false) (PStr "Instance not found") _ _ _ _ _);
    reflexivity.
Defined.
